(** * auto-white-paper: the chapter pipeline and its context budget

    A shallow embedding of
    - [awp/agents/base_agent.py]   ([ChapterContent], [_get_previous_context]),
    - [awp/agents/introduction.py] ([IntroductionAgent]),
    - [awp/output/latex_converter.py] ([compile_pdf]),
    - [awp/pipeline/orchestrator.py] ([PipelineOrchestrator]),
    followed by the properties of the specification that concern them.

    Python [str] is [string], Python [int] is [Z], a [dict] built with a
    fixed set of keys is a record, a [dict] that is indexed and updated by
    key is a [gmap].  Raising is a value of [Exn] in the left summand of
    a result, and the orchestrator runs in a state-and-exception monad
    whose state survives a raise, as attribute assignments on [self.state]
    do in Python. *)

From Stdlib Require Import Ascii String.
From Stdlib Require Import Sorted.
From stdpp Require Import gmap strings list pretty sorting.

Open Scope Z_scope.

(** ** Python string primitives *)

Module PyStr.

Definition LF : ascii := "010"%char.

(** The paragraph separator ["\n\n"]. *)
Definition para_sep : string := String LF (String LF EmptyString).

(** [len(s)] *)
Definition len (s : string) : Z := Z.of_nat (String.length s).

(** [s[:n]] for a non-negative literal [n]. *)
Fixpoint take (n : nat) (s : string) : string :=
  match n, s with
  | O, _ => EmptyString
  | S _, EmptyString => EmptyString
  | S n', String c s' => String c (take n' s')
  end.

(** [s.startswith(p)] *)
Fixpoint startswith (p s : string) : bool :=
  match p, s with
  | EmptyString, _ => true
  | String _ _, EmptyString => false
  | String a p', String b s' => if Ascii.eqb a b then startswith p' s' else false
  end.

Definition snoc (s : string) (c : ascii) : string := s +:+ String c EmptyString.

(** [s.split(sep)] for a non-empty [sep]: scan left to right, cut at
    every non-overlapping occurrence.  [skip] counts the characters of
    an occurrence still to be passed over, [cur] is the piece being
    built. *)
Fixpoint split_go (sep : string) (skip : nat) (cur : string) (s : string)
  : list string :=
  match s with
  | EmptyString => [cur]
  | String c s' =>
      match skip with
      | S k => split_go sep k cur s'
      | O =>
          if startswith sep s
          then cur :: split_go sep (String.length sep - 1)%nat EmptyString s'
          else split_go sep O (snoc cur c) s'
      end
  end.

Definition split (sep s : string) : list string := split_go sep O EmptyString s.

(** [sep.join(parts)] *)
Fixpoint join (sep : string) (parts : list string) : string :=
  match parts with
  | [] => EmptyString
  | [p] => p
  | p :: rest => p +:+ sep +:+ join sep rest
  end.

(** Whitespace for [str.strip()], within ASCII. *)
Definition is_space (c : ascii) : bool :=
  let n := nat_of_ascii c in
  ((9 <=? n)%nat && (n <=? 13)%nat) || ((28 <=? n)%nat && (n <=? 32)%nat).

Fixpoint lstrip (s : string) : string :=
  match s with
  | EmptyString => EmptyString
  | String c s' => if is_space c then lstrip s' else s
  end.

Fixpoint rstrip (s : string) : string :=
  match s with
  | EmptyString => EmptyString
  | String c s' =>
      match rstrip s' with
      | EmptyString => if is_space c then EmptyString else String c EmptyString
      | r => String c r
      end
  end.

(** [s.strip()] *)
Definition strip (s : string) : string := rstrip (lstrip s).

(** [needle in s], as a proposition. *)
Definition contains (s needle : string) : Prop :=
  exists pre post, s = pre +:+ needle +:+ post.

(** [s.endswith(suffix)], as a proposition. *)
Definition ends_with (s suffix : string) : Prop :=
  exists pre, s = pre +:+ suffix.

End PyStr.

(** ** base_agent.py *)

(** [ChapterContent].  The attachment dictionaries have string keys and,
    in every place the agents build them, string values. *)
Record ChapterContent := mkChapterContent {
  chapter_number : Z;
  title : string;
  content_markdown : string;
  figures : list (gmap string string);
  tables : list (gmap string string);
  equations : list (gmap string string);
  references : list string;
  code_listings : list (gmap string string);
}.

(** The one-line summary built in the loop of [_get_previous_context]:
    [f"Chapter {n} ({title}): "] followed by
    [content_markdown.split("\n\n")[0][:500]]. *)
Definition first_para (cap : nat) (content : string) : string :=
  PyStr.take cap (hd EmptyString (PyStr.split PyStr.para_sep content)).

Definition chapter_summary (chapter : ChapterContent) : string :=
  ("Chapter " +:+ pretty (chapter_number chapter) +:+ " (" +:+ title chapter +:+ "): ")
    +:+ first_para 500 (content_markdown chapter).

(** The [for chapter in reversed(previous_chapters)] loop: [chapters] is
    what is left of the reversed list, [parts] is [context_parts].
    [insert(0, summary)] puts the summary in front. *)
Fixpoint context_loop (chapters : list ChapterContent) (remaining_chars : Z)
    (context_parts : list string) : list string :=
  match chapters with
  | [] => context_parts
  | chapter :: rest =>
      let summary := chapter_summary chapter in
      if PyStr.len summary <=? remaining_chars
      then context_loop rest (remaining_chars - PyStr.len summary)
                        (summary :: context_parts)
      else context_parts
  end.

Definition context_parts_of (previous_chapters : list ChapterContent)
    (max_chars : Z) : list string :=
  context_loop (rev previous_chapters) max_chars [].

Definition _get_previous_context (previous_chapters : list ChapterContent)
    (max_chars : Z) : string :=
  match previous_chapters with
  | [] => EmptyString
  | _ => PyStr.join PyStr.para_sep (context_parts_of previous_chapters max_chars)
  end.

(** Total number of characters of a list of summaries. *)
Definition total_len (parts : list string) : Z :=
  foldr (fun s acc => PyStr.len s + acc) 0 parts.

(** ** Exceptions and results *)

(** The exception classes the code names, all of them subclasses of
    [Exception]; [exn_str] is [str(e)]. *)
Inductive ExnClass :=
  | RuntimeError | FileNotFoundError | GitCommandError | AttributeError
  | ValueError | OtherException.

Record Exn := mkExn { exn_class : ExnClass; exn_str : string }.

(** A call either raises ([inl]) or returns ([inr]). *)
Definition Result (A : Type) : Type := Exn + A.

Definition rbind {A B} (r : Result A) (k : A -> Result B) : Result B :=
  match r with
  | inl e => inl e
  | inr a => k a
  end.

(** ** Values held in the untyped dictionaries *)

(** [code_analysis] and the template contexts are [dict[str, Any]]. *)
#[warnings="-register-all"] Inductive Value :=
  | VNone
  | VBool (b : bool)
  | VInt (n : Z)
  | VStr (s : string)
  | VList (l : list Value)
  | VDict (d : list (string * Value)).

Definition str_list (l : list string) : Value := VList (VStr <$> l).

(** A [dict[str, int]], keys in insertion order. *)
Definition int_dict (d : list (string * Z)) : Value :=
  VDict ((fun p => (p.1, VInt p.2)) <$> d).

Definition opt_str (o : option string) : Value :=
  match o with
  | None => VNone
  | Some s => VStr s
  end.

(** ** pathlib *)

Module PyPath.

(** A [Path]: whether it is anchored at the root, and its components. *)
Record Path := mkPath { absolute : bool; parts : list string }.

(** [a / b]: an absolute right operand replaces the left one. *)
Definition join (a b : Path) : Path :=
  if absolute b then b else mkPath (absolute a) (parts a ++ parts b).

(** [a / "name"] *)
Definition child (a : Path) (name : string) : Path :=
  mkPath (absolute a) (parts a ++ [name]).

(** [p.name] *)
Definition name (p : Path) : string := List.last (parts p) EmptyString.

(** [p.parent] *)
Definition parent (p : Path) : Path :=
  mkPath (absolute p) (removelast (parts p)).

(** [n[:n.rfind(".")]], when [n] has a dot. *)
Fixpoint before_last_dot (n : string) : option string :=
  match n with
  | EmptyString => None
  | String c n' =>
      match before_last_dot n' with
      | Some t => Some (String c t)
      | None => if Ascii.eqb c "."%char then Some EmptyString else None
      end
  end.

(** [p.stem] of a name: the dot must be neither first nor last. *)
Definition stem (n : string) : string :=
  match before_last_dot n with
  | Some t =>
      let i := String.length t in
      if ((0 <? i)%nat && (i <? String.length n - 1)%nat) then t else n
  | None => n
  end.

(** [p.with_suffix(suffix).name]; an empty name is a [ValueError]. *)
Definition with_suffix_name (p : Path) (suffix : string) : option string :=
  match name p with
  | EmptyString => None
  | n => Some (stem n +:+ suffix)
  end.

End PyPath.

Import PyPath.

(** ** analyzer/repository.py, services/literature *)

Record RepositoryInfo := mkRepositoryInfo {
  ri_url : string;
  ri_local_path : Path;
  ri_name : string;
  ri_description : option string;
  ri_default_branch : string;
  ri_languages : list (string * Z);
  ri_readme_content : option string;
  ri_file_tree : Value;
  ri_commits_count : Z;
  ri_contributors : list string;
  ri_license : option string;
}.

Record SearchResults := mkSearchResults {
  sr_query : string;
  sr_results : list Value;
  sr_summary : string;
  sr_references : list string;
  sr_key_findings : list string;
}.

(** ** The dictionaries the orchestrator hands to every agent *)

(** [repo_dict] of [_stage_generate_chapters]: always these seven keys. *)
Record RepoDict := mkRepoDict {
  rd_name : string;
  rd_url : string;
  rd_description : option string;
  rd_readme_content : option string;
  rd_local_path : Path;
  rd_languages : list (string * Z);
  rd_license : option string;
}.

(** [generation_config]: always these three keys. *)
Record GenerationConfig := mkGenerationConfig {
  gc_language : string;
  gc_research_keywords : list string;
  gc_template_style : string;
}.

(** ** External collaborators

    Everything the pipeline does not compute itself: git and the file
    system, the literature service, the prompt templates, the language
    model, the writers and the LaTeX compiler.  A run is a function of
    these. *)

Inductive Agent :=
  | IntroductionAgent | ExistingMethodsAgent | ProposedMethodAgent
  | ImplementationAgent | ExperimentsAgent | DiscussionAgent | ConclusionAgent.

(** What an agent other than the Introduction has in hand when it calls
    the model: the template context, and the data it found on the way
    that ends up in the chapter. *)
Record Gathered := mkGathered {
  g_context : gmap string Value;
  g_figures : list (gmap string string);
  g_code_listings : list (gmap string string);
  g_existing_results : list Value;
}.

(** What [subprocess.run] followed by [pdf_path.exists()] can do. *)
Inductive CompilerOutcome :=
  | CompilerMissing                    (* FileNotFoundError *)
  | CompilerRaised (e : Exn)           (* any other exception *)
  | CompilerRan (pdf_exists : bool).

Record Collaborators := mkCollaborators {
  (** [RepositoryAnalyzer(url, clone_dir).clone()] *)
  git_clone : string -> Path -> Result unit;
  (** [RepositoryAnalyzer.extract_info()] on the cloned repository *)
  git_extract_info : string -> Path -> Result RepositoryInfo;
  (** [CodeAnalyzer(local_path).analyze()] *)
  code_analyze : Path -> Result (gmap string Value);
  (** [literature_client.search(query, max_results)] *)
  literature_search : string -> Z -> Result SearchResults;
  (** [PromptManager.render(template_name, context)] *)
  prompts_render : string -> gmap string Value -> Result (string * string);
  (** [ClaudeClient.generate(system_prompt, user_prompt)] *)
  llm_generate : string -> string -> Result string;
  (** The gathering step of the agents other than the Introduction
      (dependency heuristics, file globbing, diagram rendering). *)
  gather :
    Agent -> RepoDict -> option (gmap string Value) -> list ChapterContent ->
    GenerationConfig -> Result Gathered;
  (** [ProposedMethodAgent._extract_equations(content)], a regex scan *)
  extract_equations : string -> list (gmap string string);
  (** [output_dir.mkdir(parents=True, exist_ok=True)] *)
  mkdir : Path -> Result unit;
  (** [MarkdownWriter(output_dir).write(chapters, ...)] up to its
      [return output_path]: building the text and writing it *)
  md_write_text : Path -> list ChapterContent -> Result unit;
  (** [LaTeXConverter(...).convert_chapters(chapters, output_path, ...)] up
      to its [return output_path]: building the document and writing it *)
  tex_write_text : Path -> list ChapterContent -> Result unit;
  (** running the LaTeX compiler on a [.tex] path *)
  run_compiler : Path -> CompilerOutcome;
}.

(** ** The chapter agents *)

Definition agent_chapter_number (a : Agent) : Z :=
  match a with
  | IntroductionAgent => 1
  | ExistingMethodsAgent => 2
  | ProposedMethodAgent => 3
  | ImplementationAgent => 4
  | ExperimentsAgent => 5
  | DiscussionAgent => 6
  | ConclusionAgent => 7
  end.

Definition chapter_title (a : Agent) : string :=
  match a with
  | IntroductionAgent => "Introduction"
  | ExistingMethodsAgent => "Existing Methods and Related Work"
  | ProposedMethodAgent => "Proposed Method"
  | ImplementationAgent => "Implementation"
  | ExperimentsAgent => "Experiments and Results"
  | DiscussionAgent => "Discussion"
  | ConclusionAgent => "Conclusion"
  end.

Definition template_name (a : Agent) : string :=
  match a with
  | IntroductionAgent => "chapter1_intro"
  | ExistingMethodsAgent => "chapter2_existing"
  | ProposedMethodAgent => "chapter3_proposed"
  | ImplementationAgent => "chapter4_impl"
  | ExperimentsAgent => "chapter5_experiments"
  | DiscussionAgent => "chapter6_discussion"
  | ConclusionAgent => "chapter7_conclusion"
  end.

Section Agents.

Variable w : Collaborators.

(** [BaseChapterAgent._call_llm] with no additional instructions. *)
Definition _call_llm (a : Agent) (context : gmap string Value) : Result string :=
  rbind (prompts_render w (template_name a) context)
        (fun '(system_prompt, user_prompt) => llm_generate w system_prompt user_prompt).

(** *** introduction.py *)

Definition unavailable (query : string) : SearchResults :=
  mkSearchResults query [] "Literature search unavailable" [] [].

Definition literature_query (repo_info : RepoDict) (keywords : list string) : string :=
  let query_parts :=
    [rd_name repo_info]
      ++ match rd_description repo_info with
         | Some (String c d) => [String c d]
         | _ => []
         end
      ++ keywords in
  PyStr.join " " query_parts.

(** [IntroductionAgent._research_literature]: the [try] around the
    search, with [except Exception] returning the placeholder. *)
Definition _research_literature (repo_info : RepoDict) (keywords : list string)
  : Result SearchResults :=
  let query := literature_query repo_info keywords in
  match literature_search w query 10 with
  | inr results => inr results
  | inl e => inr (unavailable query)
  end.

(** [IntroductionAgent._summarize_readme] with [max_length = 1000]. *)
Definition keep_line (line : string) : bool :=
  match line with
  | EmptyString => false
  | _ => negb (PyStr.startswith "#" line) && negb (PyStr.startswith "![" line)
  end.

Definition _summarize_readme (readme : option string) : string :=
  match readme with
  | None | Some EmptyString => EmptyString
  | Some readme =>
      let sections := PyStr.split (String PyStr.LF "## ") readme in
      let first_section := hd EmptyString sections in
      let lines :=
        filter (fun l => keep_line l = true)
               (PyStr.strip <$> PyStr.split (String PyStr.LF EmptyString) first_section) in
      let summary := PyStr.join " " lines in
      if (1000 <? String.length summary)%nat
      then PyStr.take 1000 summary +:+ "..."
      else summary
  end.

(** [list(code_analysis.get("languages", {}).keys())] *)
Definition language_names (code_analysis : option (gmap string Value))
  : Result (list string) :=
  match code_analysis with
  | None => inl (mkExn AttributeError "'NoneType' object has no attribute 'get'")
  | Some ca =>
      match ca !! "languages" with
      | None => inr []
      | Some (VDict d) => inr (d.*1)
      | Some _ => inl (mkExn AttributeError "object has no attribute 'keys'")
      end
  end.

(** The [context] dictionary of [IntroductionAgent.generate]. *)
Definition introduction_context (repo_info : RepoDict)
    (main_technologies : list string) (literature : SearchResults)
    (config : GenerationConfig) : gmap string Value :=
  list_to_map
    [ ("repo_name", VStr (rd_name repo_info));
      ("repo_description", opt_str (rd_description repo_info));
      ("readme_summary", VStr (_summarize_readme (rd_readme_content repo_info)));
      ("main_technologies", str_list main_technologies);
      ("literature_summary", VStr (sr_summary literature));
      ("literature_findings", str_list (sr_key_findings literature));
      ("target_audience", VStr "researchers");
      ("language", VStr (gc_language config)) ].

Definition introduction_generate (repo_info : RepoDict)
    (code_analysis : option (gmap string Value))
    (previous_chapters : list ChapterContent) (config : GenerationConfig)
  : Result ChapterContent :=
  rbind (_research_literature repo_info (gc_research_keywords config)) (fun literature =>
  rbind (language_names code_analysis) (fun main_technologies =>
  let context := introduction_context repo_info main_technologies literature config in
  rbind (_call_llm IntroductionAgent context) (fun content =>
  inr (mkChapterContent 1 (chapter_title IntroductionAgent) content
         [] [] [] (sr_references literature) [])))).

(** *** the six other agents *)

(** [ExperimentsAgent._generate_result_tables] *)
Definition _generate_result_tables (results : list Value) : list (gmap string string) :=
  match results with
  | [] => []
  | _ =>
      [ list_to_map
          [ ("content",
             "| Metric | Value |" +:+ String PyStr.LF "|--------|-------|"
               +:+ String PyStr.LF "| ... | ... |");
            ("caption", "Experimental Results");
            ("label", "tab:results") ] ]
  end.

(** Gather, call the model once, build the chapter with the agent's
    own number and title. *)
Definition other_generate (a : Agent) (repo_info : RepoDict)
    (code_analysis : option (gmap string Value))
    (previous_chapters : list ChapterContent) (config : GenerationConfig)
  : Result ChapterContent :=
  rbind (gather w a repo_info code_analysis previous_chapters config) (fun g =>
  rbind (_call_llm a (g_context g)) (fun content =>
  let blank := mkChapterContent (agent_chapter_number a) (chapter_title a) content
                 [] [] [] [] [] in
  inr match a with
      | ExistingMethodsAgent =>
          mkChapterContent 2 (chapter_title a) content [] [] []
            (match previous_chapters with
             | intro :: _ => references intro
             | [] => []
             end) []
      | ProposedMethodAgent =>
          mkChapterContent 3 (chapter_title a) content [] []
            (extract_equations w content) [] []
      | ImplementationAgent =>
          mkChapterContent 4 (chapter_title a) content (g_figures g) [] [] []
            (g_code_listings g)
      | ExperimentsAgent =>
          mkChapterContent 5 (chapter_title a) content []
            (_generate_result_tables (g_existing_results g)) [] [] []
      | _ => blank
      end)).

(** [agent.generate(repo_info, code_analysis, previous_chapters, config)] *)
Definition generate (a : Agent) (repo_info : RepoDict)
    (code_analysis : option (gmap string Value))
    (previous_chapters : list ChapterContent) (config : GenerationConfig)
  : Result ChapterContent :=
  match a with
  | IntroductionAgent =>
      introduction_generate repo_info code_analysis previous_chapters config
  | _ => other_generate a repo_info code_analysis previous_chapters config
  end.

End Agents.

(** ** output/latex_converter.py *)

(** [LaTeXConverter.compile_pdf(tex_path)] with the default
    [output_dir = tex_path.parent]: only [FileNotFoundError] is caught. *)
Definition compile_pdf (w : Collaborators) (tex_path : Path) : Result (option Path) :=
  let output_dir := parent tex_path in
  match run_compiler w tex_path with
  | CompilerMissing => inr None
  | CompilerRaised e => inl e
  | CompilerRan pdf_exists =>
      match with_suffix_name tex_path ".pdf" with
      | None => inl (mkExn ValueError "has an empty name")
      | Some pdf_name =>
          let pdf_path := child output_dir pdf_name in
          if pdf_exists then inr (Some pdf_path) else inr None
      end
  end.

(** ** pipeline/orchestrator.py *)

Record PipelineConfig := mkPipelineConfig {
  github_url : string;
  output_dir : Path;
  template_style : string;
  language : string;
  include_chapters : list Z;
  research_keywords : list string;
  review_after_chapters : list Z;
  paper_title : string;
  authors : list (gmap string string);
}.

Record PipelineState := mkPipelineState {
  current_stage : string;
  completed_chapters : list ChapterContent;
  repo_info : option RepositoryInfo;
  code_analysis : option (gmap string Value);
  errors : list string;
}.

(** [PipelineState()] *)
Definition initial_state : PipelineState :=
  mkPipelineState "initialized" [] None None [].

(** What an observer of a run sees besides the state: every assignment
    to [current_stage] and every call of an agent's [generate] with what
    it did. *)
Inductive Event :=
  | EvStage (stage : string)
  | EvGenerate (chapter_num : Z) (outcome : Result ChapterContent).

Record Machine := mkMachine {
  state : PipelineState;
  trace : list Event;
}.

Definition initial_machine : Machine := mkMachine initial_state [].

(** Computations of the orchestrator: the state written before a raise
    stays written. *)
Definition M (A : Type) : Type := Machine -> Result A * Machine.

Definition ret {A} (a : A) : M A := fun m => (inr a, m).
Definition raise {A} (e : Exn) : M A := fun m => (inl e, m).
Definition bind {A B} (c : M A) (k : A -> M B) : M B :=
  fun m => match c m with
           | (inl e, m') => (inl e, m')
           | (inr a, m') => k a m'
           end.
Definition lift {A} (r : Result A) : M A := fun m => (r, m).
Definition try_except {A} (c : M A) (handler : Exn -> M A) : M A :=
  fun m => match c m with
           | (inl e, m') => handler e m'
           | (inr a, m') => (inr a, m')
           end.
Definition get_state : M PipelineState := fun m => (inr (state m), m).

Notation "x <-- c ;;; k" := (bind c (fun x => k))
  (at level 20, c at level 19, k at level 200, only parsing).
Notation "c ;;; k" := (bind c (fun _ => k))
  (at level 20, k at level 200, only parsing).

Definition set_stage (stage : string) : M unit := fun m =>
  let s := state m in
  (inr tt,
   mkMachine (mkPipelineState stage (completed_chapters s) (repo_info s)
                (code_analysis s) (errors s))
             (trace m ++ [EvStage stage])).

Definition set_repo_info (ri : RepositoryInfo) : M unit := fun m =>
  let s := state m in
  (inr tt,
   mkMachine (mkPipelineState (current_stage s) (completed_chapters s) (Some ri)
                (code_analysis s) (errors s))
             (trace m)).

Definition set_code_analysis (ca : gmap string Value) : M unit := fun m =>
  let s := state m in
  (inr tt,
   mkMachine (mkPipelineState (current_stage s) (completed_chapters s) (repo_info s)
                (Some ca) (errors s))
             (trace m)).

(** [self.state.completed_chapters.append(chapter)] *)
Definition append_chapter (chapter : ChapterContent) : M unit := fun m =>
  let s := state m in
  (inr tt,
   mkMachine (mkPipelineState (current_stage s) (completed_chapters s ++ [chapter])
                (repo_info s) (code_analysis s) (errors s))
             (trace m)).

(** [self.state.errors.append(msg)] *)
Definition append_error (msg : string) : M unit := fun m =>
  let s := state m in
  (inr tt,
   mkMachine (mkPipelineState (current_stage s) (completed_chapters s) (repo_info s)
                (code_analysis s) (errors s ++ [msg]))
             (trace m)).

Definition observe (ev : Event) : M unit := fun m =>
  (inr tt, mkMachine (state m) (trace m ++ [ev])).

(** [_init_agents]: the registry. *)
Definition agents : gmap Z Agent :=
  list_to_map
    [ (1, IntroductionAgent); (2, ExistingMethodsAgent); (3, ProposedMethodAgent);
      (4, ImplementationAgent); (5, ExperimentsAgent); (6, DiscussionAgent);
      (7, ConclusionAgent) ].

(** [f"Chapter {chapter_num}: {e}"] *)
Definition chapter_error (chapter_num : Z) (e : Exn) : string :=
  "Chapter " +:+ pretty chapter_num +:+ ": " +:+ exn_str e.

Section Orchestrator.

Variable w : Collaborators.
Variable config : PipelineConfig.
Variable project_dir : Path.

(** Stage 1 *)
Definition _stage_analyze_repository : M unit :=
  set_stage "analyzing_repository" ;;;
  let clone_dir := child (child project_dir ".awp") "repo" in
  try_except
    (lift (git_clone w (github_url config) clone_dir) ;;;
     info <-- lift (git_extract_info w (github_url config) clone_dir) ;;;
     set_repo_info info)
    (fun e => raise e).

(** Stage 2 *)
Definition _stage_analyze_code : M unit :=
  set_stage "analyzing_code" ;;;
  s <-- get_state ;;;
  match repo_info s with
  | None => raise (mkExn RuntimeError "Repository not analyzed")
  | Some ri =>
      ca <-- lift (code_analyze w (ri_local_path ri)) ;;;
      set_code_analysis ca ;;;
      set_code_analysis (<["languages" := int_dict (ri_languages ri)]> ca)
  end.

(** The [await agent.generate(...)] of stage 3, reading the state as it
    is at the call. *)
Definition call_generate (chapter_num : Z) (agent : Agent) (repo_dict : RepoDict)
    (generation_config : GenerationConfig) : M ChapterContent :=
  s <-- get_state ;;;
  let outcome :=
    generate w agent repo_dict (code_analysis s) (completed_chapters s)
             generation_config in
  observe (EvGenerate chapter_num outcome) ;;;
  lift outcome.

(** One iteration of the [for chapter_num in include_chapters] loop. *)
Definition generate_chapter
    (review_callback : option (ChapterContent -> Result bool))
    (repo_dict : RepoDict) (generation_config : GenerationConfig)
    (chapter_num : Z) : M unit :=
  match agents !! chapter_num with
  | None => ret tt
  | Some agent =>
      try_except
        (chapter <-- call_generate chapter_num agent repo_dict generation_config ;;;
         append_chapter chapter ;;;
         match review_callback with
         | Some callback =>
             if bool_decide (chapter_num ∈ review_after_chapters config)
             then approved <-- lift (callback chapter) ;;; ret tt
             else ret tt
         | None => ret tt
         end)
        (fun e => append_error (chapter_error chapter_num e))
  end.

Fixpoint for_each {A} (body : A -> M unit) (l : list A) : M unit :=
  match l with
  | [] => ret tt
  | x :: rest => body x ;;; for_each body rest
  end.

(** Stage 3 *)
Definition _stage_generate_chapters
    (review_callback : option (ChapterContent -> Result bool)) : M unit :=
  set_stage "generating_chapters" ;;;
  s <-- get_state ;;;
  match repo_info s with
  | None => raise (mkExn AttributeError "'NoneType' object has no attribute 'name'")
  | Some ri =>
      let repo_dict :=
        mkRepoDict (ri_name ri) (ri_url ri) (ri_description ri) (ri_readme_content ri)
                   (ri_local_path ri) (ri_languages ri) (ri_license ri) in
      let generation_config :=
        mkGenerationConfig (language config) (research_keywords config)
                           (template_style config) in
      for_each (generate_chapter review_callback repo_dict generation_config)
               (include_chapters config)
  end.

(** Stage 4 *)
Definition _stage_generate_output : M Path :=
  set_stage "generating_output" ;;;
  let out := PyPath.join project_dir (output_dir config) in
  lift (mkdir w out) ;;;
  s <-- get_state ;;;
  let md_path := child out "paper.md" in
  lift (md_write_text w md_path (completed_chapters s)) ;;;
  let tex_path := child out "paper.tex" in
  lift (tex_write_text w tex_path (completed_chapters s)) ;;;
  pdf_path <-- lift (compile_pdf w tex_path) ;;;
  match pdf_path with
  | Some p => ret p
  | None => ret md_path
  end.

(** [PipelineOrchestrator.run] *)
Definition run (review_callback : option (ChapterContent -> Result bool)) : M Path :=
  try_except
    (_stage_analyze_repository ;;;
     _stage_analyze_code ;;;
     _stage_generate_chapters review_callback ;;;
     _stage_generate_output)
    (fun e => append_error (exn_str e) ;;; raise e).

End Orchestrator.

(** ** The log of stage 3

    The same loop, told as a list: one [Attempt] for every requested
    number that has an agent, in the order of the request, with what
    [generate] did and, when a chapter was produced, whether the review
    callback raised.  [stage_loop_spec] below proves that the loop of
    [_stage_generate_chapters] does exactly what this log says. *)

Record Attempt := mkAttempt {
  at_num : Z;
  at_outcome : Result ChapterContent;
  at_review : option Exn;
}.

(** The chapter numbers that have an agent. *)
Definition registered (chapter_num : Z) : Prop := 1 <= chapter_num <= 7.

#[global] Instance registered_dec (n : Z) : Decision (registered n).
Proof. unfold registered. apply _. Defined.

(** [f"Chapter {n}: {e}"] for every recorded failure. *)
Definition error_lines (failures : list (Z * Exn)) : list string :=
  (fun f => chapter_error f.1 f.2) <$> failures.

Section Log.

Variable w : Collaborators.
Variable config : PipelineConfig.
Variable review_callback : option (ChapterContent -> Result bool).
Variable repo_dict : RepoDict.
Variable generation_config : GenerationConfig.
Variable analysis : option (gmap string Value).

(** The exception the review step raises for a produced chapter, if
    it is run and raises. *)
Definition review_raise (chapter_num : Z) (chapter : ChapterContent) : option Exn :=
  match review_callback with
  | Some callback =>
      if bool_decide (chapter_num ∈ review_after_chapters config)
      then match callback chapter with
           | inl e => Some e
           | inr _ => None
           end
      else None
  | None => None
  end.

Fixpoint attempts (l : list Z) (completed : list ChapterContent) : list Attempt :=
  match l with
  | [] => []
  | chapter_num :: rest =>
      match agents !! chapter_num with
      | None => attempts rest completed
      | Some agent =>
          match generate w agent repo_dict analysis completed generation_config with
          | inl e =>
              mkAttempt chapter_num (inl e) None :: attempts rest completed
          | inr chapter =>
              mkAttempt chapter_num (inr chapter) (review_raise chapter_num chapter)
                :: attempts rest (completed ++ [chapter])
          end
      end
  end.

End Log.

(** The chapters a log appended, the failures it recorded, the calls it
    made. *)
Definition produced (a : Attempt) : option ChapterContent :=
  match at_outcome a with
  | inr chapter => Some chapter
  | inl _ => None
  end.

Definition failure (a : Attempt) : option (Z * Exn) :=
  match at_outcome a with
  | inl e => Some (at_num a, e)
  | inr _ => (fun e => (at_num a, e)) <$> at_review a
  end.

Definition chapters_of (log : list Attempt) : list ChapterContent := omap produced log.
Definition failures_of (log : list Attempt) : list (Z * Exn) := omap failure log.
Definition events_of (log : list Attempt) : list Event :=
  (fun a => EvGenerate (at_num a) (at_outcome a)) <$> log.

(** The chapter numbers of the [generate] calls in a trace, in order. *)
Definition invoked (tr : list Event) : list Z :=
  omap (fun ev => match ev with
                  | EvGenerate n _ => Some n
                  | EvStage _ => None
                  end) tr.

(** The stages a trace went through, in order. *)
Definition stages (tr : list Event) : list string :=
  omap (fun ev => match ev with
                  | EvStage s => Some s
                  | EvGenerate _ _ => None
                  end) tr.

(** Stage 1 raises [e]: cloning does, or cloning succeeds and the
    extraction does. *)
Definition stage1_raises (w : Collaborators) (config : PipelineConfig)
    (project_dir : Path) (e : Exn) : Prop :=
  let clone_dir := child (child project_dir ".awp") "repo" in
  git_clone w (github_url config) clone_dir = inl e \/
  (git_clone w (github_url config) clone_dir = inr tt /\
   git_extract_info w (github_url config) clone_dir = inl e).

(** The PDF compilation fails without raising: the compiler is not
    installed, or it ran and left no PDF. *)
Definition pdf_fails (w : Collaborators) (tex_path : Path) : Prop :=
  run_compiler w tex_path = CompilerMissing \/
  run_compiler w tex_path = CompilerRan false.

(** A machine after more chapters, more errors and more events. *)
Definition extend (m : Machine) (chapters : list ChapterContent)
    (errs : list string) (evs : list Event) : Machine :=
  let s := state m in
  mkMachine (mkPipelineState (current_stage s) (completed_chapters s ++ chapters)
               (repo_info s) (code_analysis s) (errors s ++ errs))
            (trace m ++ evs).

(** [repo_dict] and [generation_config] as stage 3 builds them. *)
Definition repo_dict_of (ri : RepositoryInfo) : RepoDict :=
  mkRepoDict (ri_name ri) (ri_url ri) (ri_description ri) (ri_readme_content ri)
             (ri_local_path ri) (ri_languages ri) (ri_license ri).

Definition generation_config_of (config : PipelineConfig) : GenerationConfig :=
  mkGenerationConfig (language config) (research_keywords config)
                     (template_style config).

(** The log of stage 3 started in machine [m], whose repository
    information is [ri]. *)
Definition stage_log (w : Collaborators) (config : PipelineConfig)
    (review_callback : option (ChapterContent -> Result bool))
    (ri : RepositoryInfo) (m : Machine) : list Attempt :=
  attempts w config review_callback (repo_dict_of ri) (generation_config_of config)
           (code_analysis (state m)) (include_chapters config)
           (completed_chapters (state m)).

(** Every produced chapter of a log carries the number it was asked for. *)
Definition well_numbered (log : list Attempt) : Prop :=
  Forall (fun a => forall chapter,
            at_outcome a = inr chapter -> chapter_number chapter = at_num a) log.

(** Ascending chapter numbers. *)
Definition ascending (l : list Z) : Prop := StronglySorted Z.lt l.

(** ** More Python string primitives *)

Module PyStrMore.

(** [s[n:]] for a non-negative [n]. *)
Fixpoint drop (n : nat) (s : string) : string :=
  match n, s with
  | O, _ => s
  | S _, EmptyString => EmptyString
  | S n', String _ s' => drop n' s'
  end.

(** [c in s] for a single character. *)
Fixpoint has_char (c : ascii) (s : string) : bool :=
  match s with
  | EmptyString => false
  | String a s' => Ascii.eqb a c || has_char c s'
  end.

(** [s.rstrip(c)] for a single character [c]. *)
Fixpoint rstrip_char (c : ascii) (s : string) : string :=
  match s with
  | EmptyString => EmptyString
  | String a s' =>
      match rstrip_char c s' with
      | EmptyString => if Ascii.eqb a c then EmptyString else String a EmptyString
      | r => String a r
      end
  end.

(** [s.endswith(suffix)] *)
Definition endswith (suffix s : string) : bool :=
  (String.length suffix <=? String.length s)%nat
  && String.eqb (drop (String.length s - String.length suffix) s) suffix.

(** [s[:-n]] for a positive [n]. *)
Definition drop_last (n : nat) (s : string) : string :=
  PyStr.take (String.length s - n) s.

(** [s.lower()], on ASCII letters. *)
Definition lower_char (c : ascii) : ascii :=
  let n := nat_of_ascii c in
  if ((65 <=? n)%nat && (n <=? 90)%nat) then ascii_of_nat (n + 32) else c.

Fixpoint lower (s : string) : string :=
  match s with
  | EmptyString => EmptyString
  | String c s' => String (lower_char c) (lower s')
  end.

(** [s.replace(a, b)] for single characters. *)
Fixpoint replace_char (a b : ascii) (s : string) : string :=
  match s with
  | EmptyString => EmptyString
  | String c s' => String (if Ascii.eqb c a then b else c) (replace_char a b s')
  end.

End PyStrMore.

(** ** analyzer/repository.py: the repository name *)

(** [RepositoryAnalyzer._extract_repo_name(url)] *)
Definition _extract_repo_name (url : string) : string :=
  let url := PyStrMore.rstrip_char "/"%char url in
  let url := if PyStrMore.endswith ".git" url then PyStrMore.drop_last 4 url else url in
  List.last (PyStr.split "/" url) EmptyString.

(** ** base_agent.py: sections of a generated text *)

(** [line[3:].strip().lower().replace(" ", "_")] *)
Definition section_name (line : string) : string :=
  PyStrMore.replace_char " "%char "_"%char
    (PyStrMore.lower (PyStr.strip (PyStrMore.drop 3 line))).

(** [if current_content: sections[current_section] = "\n".join(current_content)] *)
Definition flush_section (sections : gmap string string) (current_section : string)
    (current_content : list string) : gmap string string :=
  match current_content with
  | [] => sections
  | _ => <[current_section := PyStr.join (String PyStr.LF EmptyString) current_content]>
           sections
  end.

(** The [for line in content.split("\n")] loop of [_extract_sections]
    and the flush after it. *)
Fixpoint sections_loop (lines : list string) (sections : gmap string string)
    (current_section : string) (current_content : list string)
  : gmap string string :=
  match lines with
  | [] => flush_section sections current_section current_content
  | line :: rest =>
      if PyStr.startswith "## " line
      then sections_loop rest (flush_section sections current_section current_content)
                         (section_name line) []
      else sections_loop rest sections current_section (current_content ++ [line])
  end.

(** [BaseChapterAgent._extract_sections(content)] *)
Definition _extract_sections (content : string) : gmap string string :=
  sections_loop (PyStr.split (String PyStr.LF EmptyString) content) ∅ "intro" [].

(** ** output/markdown_writer.py *)

(** [dict.get(key, "")] on an attachment or author dictionary. *)
Definition get_or_empty (d : gmap string string) (key : string) : string :=
  default EmptyString (d !! key).

(** One author of the author line: the name, or "Unknown", followed by
    the affiliation in parentheses when there is a non-empty one. *)
Definition author_str (author : gmap string string) : string :=
  default "Unknown" (author !! "name")
    +:+ match author !! "affiliation" with
        | Some (String c a) => " (" +:+ String c a +:+ ")"
        | _ => EmptyString
        end.

(** A line of the table of contents. *)
Definition toc_line (chapter : ChapterContent) : string :=
  "- [" +:+ pretty (chapter_number chapter) +:+ ". " +:+ title chapter +:+ "](#"
    +:+ pretty (chapter_number chapter) +:+ "-"
    +:+ PyStrMore.replace_char " "%char "-"%char (PyStrMore.lower (title chapter))
    +:+ ")".

Definition figure_lines (fig : gmap string string) : list string :=
  [ "![" +:+ get_or_empty fig "caption" +:+ "](" +:+ get_or_empty fig "path" +:+ ")";
    "*Figure: " +:+ get_or_empty fig "caption" +:+ "*";
    EmptyString ].

Definition table_lines (table : gmap string string) : list string :=
  [ get_or_empty table "content";
    "*Table: " +:+ get_or_empty table "caption" +:+ "*";
    EmptyString ].

(** The lines of one chapter, up to its rule. *)
Definition chapter_lines (chapter : ChapterContent) : list string :=
  [ "## " +:+ pretty (chapter_number chapter) +:+ ". " +:+ title chapter;
    EmptyString; content_markdown chapter; EmptyString ]
    ++ concat (figure_lines <$> figures chapter)
    ++ concat (table_lines <$> tables chapter)
    ++ [ "---"; EmptyString ].

(** [sorted(set(all_refs))]: the distinct keys in increasing order. *)
Definition reference_keys (chapters : list ChapterContent) : list string :=
  merge_sort String.le (remove_dups (concat (references <$> chapters))).

(** [enumerate(keys, 1)] rendered as [f"[{i}] {ref}"]. *)
Fixpoint numbered_from (i : Z) (keys : list string) : list string :=
  match keys with
  | [] => []
  | ref :: rest => ("[" +:+ pretty i +:+ "] " +:+ ref) :: numbered_from (i + 1) rest
  end.

Definition reference_lines (chapters : list ChapterContent) : list string :=
  match concat (references <$> chapters) with
  | [] => []
  | _ => [ "## References"; EmptyString ]
           ++ numbered_from 1 (reference_keys chapters) ++ [ EmptyString ]
  end.

(** The list [lines] of [MarkdownWriter.write] when it is joined. *)
Definition markdown_lines (chapters : list ChapterContent) (paper_title : string)
    (paper_authors : list (gmap string string)) : list string :=
  [ "# " +:+ paper_title; EmptyString ]
    ++ match paper_authors with
       | [] => []
       | _ => [ PyStr.join ", " (author_str <$> paper_authors); EmptyString ]
       end
    ++ [ "## Table of Contents"; EmptyString ]
    ++ (toc_line <$> chapters)
    ++ [ EmptyString; "---"; EmptyString ]
    ++ concat (chapter_lines <$> chapters)
    ++ reference_lines chapters.

(** The text [MarkdownWriter.write] writes to [output_dir / "paper.md"]. *)
Definition markdown_document (chapters : list ChapterContent) (paper_title : string)
    (paper_authors : list (gmap string string)) : string :=
  PyStr.join (String PyStr.LF EmptyString)
             (markdown_lines chapters paper_title paper_authors).

(** ** The run as a whole *)

(** The stage tags in the order [run] enters them. *)
Definition all_stages : list string :=
  ["analyzing_repository"; "analyzing_code"; "generating_chapters"; "generating_output"].

(** The [except] branch of [run]: record [str(e)], raise again. *)
Definition fail_with {A} (e : Exn) (m : Machine) : Result A * Machine :=
  (inl e, (append_error (exn_str e) m).2).

(** [PipelineOrchestrator.get_state]: the dictionary with the keys
    ["stage"], ["chapters_completed"] and ["errors"]. *)
Record StateReport := mkStateReport {
  report_stage : string;
  report_chapters_completed : Z;
  report_errors : list string;
}.

Definition orchestrator_get_state (s : PipelineState) : StateReport :=
  mkStateReport (current_stage s) (Z.of_nat (length (completed_chapters s))) (errors s).

(** The attempts of a log whose [generate] call raised. *)
Definition generate_failed (a : Attempt) : bool :=
  match at_outcome a with
  | inl _ => true
  | inr _ => false
  end.

(** What a stage other than the third leaves behind: its tag, one more
    event, and the chapters and the error log untouched. *)
Definition enters (stage : string) (m m' : Machine) : Prop :=
  trace m' = trace m ++ [EvStage stage] /\
  current_stage (state m') = stage /\
  completed_chapters (state m') = completed_chapters (state m) /\
  errors (state m') = errors (state m).

(** ** Sample data *)

(** Two short chapters used to run the definitions. *)
Definition sample_chapter (n : Z) (t body : string) : ChapterContent :=
  mkChapterContent n t body [] [] [] [] [].
Definition sample_intro : ChapterContent := sample_chapter 1 "Intro" "Hello".
Definition sample_related : ChapterContent := sample_chapter 2 "B" "World".

(** A repository, a configuration and collaborators that always answer:
    the literature service is down, the templates render, the model
    fails on the template named [bad] and writes a body for the others,
    the compiler does [cmp]. *)
Definition sample_repo : RepositoryInfo :=
  mkRepositoryInfo "https://example.org/u/demo" (mkPath true ["w"; ".awp"; "repo"])
    "demo" (Some "A demo") "main" [("Python", 10)] None VNone 1 [] None.

Definition sample_world (bad : string) (cmp : CompilerOutcome) : Collaborators :=
  mkCollaborators
    (fun _ _ => inr tt)
    (fun _ _ => inr sample_repo)
    (fun _ => inr ∅)
    (fun _ _ => inl (mkExn OtherException "network down"))
    (fun template _ => inr (template, "user prompt"))
    (fun system_prompt _ =>
       if String.eqb system_prompt bad
       then inl (mkExn OtherException "quota exceeded")
       else inr ("Body of " +:+ system_prompt))
    (fun _ _ _ _ _ => inr (mkGathered ∅ [] [] []))
    (fun _ => [])
    (fun _ => inr tt)
    (fun _ _ => inr tt)
    (fun _ _ => inr tt)
    (fun _ => cmp).

Definition sample_config (chapters : list Z) : PipelineConfig :=
  mkPipelineConfig "https://example.org/u/demo" (mkPath false ["output"]) "ieee" "en"
    chapters [] [] "Demo" [].

Definition sample_dir : Path := mkPath true ["w"].

(** A machine as stage 1 leaves it. *)
Definition sample_cloned : Machine :=
  mkMachine (mkPipelineState "analyzing_repository" [] (Some sample_repo) None [])
            [EvStage "analyzing_repository"].

(** A machine that has its repository information and an analysis. *)
Definition sample_analyzed : Machine :=
  mkMachine (mkPipelineState "analyzing_code" [] (Some sample_repo) (Some ∅) [])
            [EvStage "analyzing_repository"; EvStage "analyzing_code"].

(** * Properties *)

(** ** The context budget *)

Section ContextBudget.

Lemma append_assoc (a b c : string) : (a +:+ b) +:+ c = a +:+ (b +:+ c).
Proof.
  induction a as [|x a IH]; [reflexivity|].
  change (String x ((a +:+ b) +:+ c) = String x (a +:+ (b +:+ c))).
  now rewrite IH.
Qed.

Lemma len_nonneg (s : string) : 0 <= PyStr.len s.
Proof. unfold PyStr.len. lia. Qed.

Lemma total_len_cons (s : string) (l : list string) :
  total_len (s :: l) = PyStr.len s + total_len l.
Proof. reflexivity. Qed.

Lemma total_len_app (l k : list string) :
  total_len (l ++ k) = total_len l + total_len k.
Proof. induction l as [|s l IH]; simpl; [reflexivity | rewrite IH; lia]. Qed.

Lemma total_len_nonneg (l : list string) : 0 <= total_len l.
Proof.
  induction l as [|s l IH]; simpl; [lia | pose proof (len_nonneg s); lia].
Qed.

(** The digest of a list of parts that ends with [s] ends with [s]. *)
Lemma join_ends_with (sep : string) (l : list string) (s : string) :
  PyStr.ends_with (PyStr.join sep (l ++ [s])) s.
Proof.
  induction l as [|p l IH].
  - exists EmptyString. reflexivity.
  - destruct IH as [pre Hpre].
    change ((p :: l) ++ [s]) with (p :: (l ++ [s])).
    destruct (l ++ [s]) as [|q rest] eqn:E.
    + destruct l; discriminate.
    + exists (p +:+ sep +:+ pre).
      change (PyStr.join sep (p :: q :: rest))
        with (p +:+ sep +:+ PyStr.join sep (q :: rest)).
      rewrite Hpre, !append_assoc. reflexivity.
Qed.

(** What the loop has done when it stops: it took a prefix [taken] of
    the chapters it was given, put their summaries in front of
    [context_parts] (the last taken first), never went over the
    budget, and the chapter it stopped at, if any, did not fit. *)
Lemma context_loop_spec (chapters : list ChapterContent) :
  forall (remaining : Z) (context_parts : list string),
  exists taken rest,
    chapters = taken ++ rest /\
    context_loop chapters remaining context_parts
      = rev (chapter_summary <$> taken) ++ context_parts /\
    (taken <> [] -> total_len (chapter_summary <$> taken) <= remaining) /\
    match rest with
    | [] => True
    | c :: _ =>
        remaining - total_len (chapter_summary <$> taken)
          < PyStr.len (chapter_summary c)
    end.
Proof.
  induction chapters as [|c chapters IH]; intros remaining context_parts.
  - exists [], []. simpl. repeat split; [congruence].
  - simpl. destruct (Z.leb_spec (PyStr.len (chapter_summary c)) remaining) as [Hfit|Hover].
    + destruct (IH (remaining - PyStr.len (chapter_summary c))
                   (chapter_summary c :: context_parts))
        as (taken & rest & -> & Hloop & Hsum & Hstop).
      exists (c :: taken), rest. rewrite fmap_cons, total_len_cons.
      repeat split.
      * rewrite Hloop. simpl. rewrite <- app_assoc. reflexivity.
      * intros _. destruct taken as [|t taken].
        -- simpl. lia.
        -- specialize (Hsum ltac:(discriminate)). lia.
      * destruct rest as [|r rest]; [exact I|]. lia.
    + exists [], (c :: chapters). simpl. repeat split; [congruence | lia].
Qed.

Lemma rev_fmap {A B} (f : A -> B) (l : list A) : rev (f <$> l) = f <$> rev l.
Proof.
  induction l as [|x l IH]; [reflexivity|].
  rewrite fmap_cons. simpl. rewrite IH, fmap_app. reflexivity.
Qed.

Lemma total_len_rev (l : list string) : total_len (rev l) = total_len l.
Proof.
  induction l as [|s l IH]; [reflexivity|].
  simpl rev. rewrite total_len_app, IH, !total_len_cons. simpl. lia.
Qed.

(** The early return on an empty list agrees with the general path. *)
Lemma get_previous_context_join (previous_chapters : list ChapterContent)
    (max_chars : Z) :
  _get_previous_context previous_chapters max_chars
    = PyStr.join PyStr.para_sep (context_parts_of previous_chapters max_chars).
Proof. destruct previous_chapters; reflexivity. Qed.

End ContextBudget.

(** C10.  With no previous chapters the digest is the empty string,
    whatever the budget. *)
Theorem get_previous_context_empty (max_chars : Z) :
  _get_previous_context [] max_chars = EmptyString.
Proof. reflexivity. Qed.

(** C4, as stated, fails: a single previous chapter whose summary (24
    characters) is longer than the budget (10) is over budget, and the
    digest is empty, so it does not include the most recent summary. *)
Lemma get_previous_context_recent_dropped :
  let previous_chapters := [sample_intro] in
  previous_chapters <> [] /\
  10 < total_len (chapter_summary <$> previous_chapters) /\
  ~ PyStr.contains (_get_previous_context previous_chapters 10)
                   (chapter_summary sample_intro).
Proof.
  split; [discriminate|]. split; [reflexivity|].
  intros (pre & post & H). vm_compute in H.
  destruct pre; discriminate H.
Qed.

(** C4, amended.  For previous chapters [older ++ [recent]] whose
    summaries total more than the budget: the digest joins the summaries
    of the chapters [kept], a proper suffix of the list in its order; the
    chapter just before [kept] is the first that would have overflowed
    what was left of the budget; the kept summaries never total more
    than a non-negative budget; the most recent summary is included in
    full, at the end of the digest, whenever it fits the budget by
    itself, and the digest is empty when it does not. *)
Theorem get_previous_context_budget (older : list ChapterContent)
    (recent : ChapterContent) (max_chars : Z) :
  let previous_chapters := older ++ [recent] in
  let parts := context_parts_of previous_chapters max_chars in
  let digest := _get_previous_context previous_chapters max_chars in
  max_chars < total_len (chapter_summary <$> previous_chapters) ->
  digest = PyStr.join PyStr.para_sep parts /\
  (exists dropped first_out kept,
      previous_chapters = dropped ++ [first_out] ++ kept /\
      parts = chapter_summary <$> kept /\
      max_chars < PyStr.len (chapter_summary first_out) + total_len parts) /\
  (0 <= max_chars -> total_len parts <= max_chars) /\
  (PyStr.len (chapter_summary recent) <= max_chars ->
     In (chapter_summary recent) parts /\
     PyStr.ends_with digest (chapter_summary recent)) /\
  (max_chars < PyStr.len (chapter_summary recent) -> digest = EmptyString).
Proof.
  intros previous_chapters parts digest Hover.
  assert (Hdigest : digest = PyStr.join PyStr.para_sep parts)
    by apply get_previous_context_join.
  destruct (context_loop_spec (rev previous_chapters) max_chars [])
    as (taken & rest & Hsplit & Hloop & Hsum & Hstop).
  fold (context_parts_of previous_chapters max_chars) in Hloop. fold parts in Hloop.
  rewrite app_nil_r, rev_fmap in Hloop.
  assert (Hprev : previous_chapters = rev rest ++ rev taken).
  { rewrite <- rev_app_distr, <- Hsplit, rev_involutive. reflexivity. }
  assert (Htotal : total_len parts = total_len (chapter_summary <$> taken)).
  { rewrite Hloop, <- rev_fmap. apply total_len_rev. }
  assert (Hrev : rev previous_chapters = recent :: rev older).
  { unfold previous_chapters. rewrite rev_app_distr. reflexivity. }
  split; [exact Hdigest|]. split; [|split; [|split]].
  - destruct rest as [|c rest].
    + exfalso. rewrite app_nil_r in Hsplit. subst taken.
      rewrite Hrev in Hsum. specialize (Hsum ltac:(discriminate)).
      rewrite <- Hrev, <- rev_fmap, total_len_rev in Hsum. lia.
    + exists (rev rest), c, (rev taken). split; [|split].
      * rewrite Hprev. simpl. rewrite <- app_assoc. reflexivity.
      * exact Hloop.
      * rewrite Htotal. lia.
  - intros Hpos. rewrite Htotal. destruct taken as [|t taken].
    + simpl. exact Hpos.
    + apply Hsum. discriminate.
  - intros Hfit. destruct taken as [|t taken].
    + exfalso. simpl in Hsplit. rewrite <- Hsplit, Hrev in Hstop. simpl in Hstop. lia.
    + rewrite Hrev in Hsplit. injection Hsplit as <- _.
      assert (Hparts : parts = (chapter_summary <$> rev taken) ++ [chapter_summary recent]).
      { rewrite Hloop. simpl. rewrite fmap_app. reflexivity. }
      split.
      * rewrite Hparts. apply in_or_app. right. left. reflexivity.
      * rewrite Hdigest, Hparts. apply join_ends_with.
  - intros Hbig. destruct taken as [|t taken].
    + rewrite Hdigest, Hloop. reflexivity.
    + exfalso. rewrite Hrev in Hsplit. injection Hsplit as <- _.
      specialize (Hsum ltac:(discriminate)).
      rewrite fmap_cons, total_len_cons in Hsum.
      pose proof (total_len_nonneg (chapter_summary <$> taken)). lia.
Qed.

Lemma get_previous_context_budget_witness :
  23 < total_len (chapter_summary <$> [sample_intro] ++ [sample_related]) /\
  _get_previous_context ([sample_intro] ++ [sample_related]) 23
    = PyStr.join PyStr.para_sep
        (context_parts_of ([sample_intro] ++ [sample_related]) 23).
Proof.
  split; [reflexivity|].
  apply (get_previous_context_budget [sample_intro] sample_related 23).
  reflexivity.
Defined.

(** ** Stage 3: the chapter loop *)

Section ChapterLoop.

(** The registry has an agent for 1..7 and for nothing else. *)
Lemma agents_lookup_None (n : Z) : agents !! n = None <-> (n < 1 \/ 7 < n).
Proof.
  split.
  - intros Hnone. destruct (decide (n < 1 \/ 7 < n)) as [|Hin]; [assumption|].
    exfalso.
    assert (n = 1 \/ n = 2 \/ n = 3 \/ n = 4 \/ n = 5 \/ n = 6 \/ n = 7) as Hcases by lia.
    destruct Hcases as [->|[->|[->|[->|[->|[->| ->]]]]]]; discriminate Hnone.
  - intros Hout. unfold agents. simpl.
    rewrite !lookup_insert_ne by lia. apply lookup_empty.
Qed.

Lemma agents_lookup_Some (n : Z) (a : Agent) :
  agents !! n = Some a -> agent_chapter_number a = n /\ 1 <= n <= 7.
Proof.
  intros Hsome.
  destruct (decide (n < 1 \/ 7 < n)) as [Hout|Hin].
  - apply agents_lookup_None in Hout. congruence.
  - assert (n = 1 \/ n = 2 \/ n = 3 \/ n = 4 \/ n = 5 \/ n = 6 \/ n = 7) as Hcases by lia.
    destruct Hcases as [->|[->|[->|[->|[->|[->| ->]]]]]];
      vm_compute in Hsome; injection Hsome as <-; split; (reflexivity || lia).
Qed.

Lemma registered_is_Some (n : Z) : registered n <-> is_Some (agents !! n).
Proof.
  unfold registered. destruct (agents !! n) as [a|] eqn:E.
  - apply agents_lookup_Some in E. split; [eauto | lia].
  - apply agents_lookup_None in E. split; [lia | intros [? ?]; discriminate].
Qed.

(** Every agent stamps its chapter with its own number. *)
Lemma generate_number (w : Collaborators) (a : Agent) (rd : RepoDict)
    (ca : option (gmap string Value)) (prev : list ChapterContent)
    (gc : GenerationConfig) (chapter : ChapterContent) :
  generate w a rd ca prev gc = inr chapter ->
  chapter_number chapter = agent_chapter_number a.
Proof.
  destruct a; simpl; unfold introduction_generate, other_generate, rbind;
    repeat (match goal with
            | |- context [match ?x with _ => _ end] => destruct x
            end; try discriminate);
    intros [= <-]; reflexivity.
Qed.

Lemma extend_nil (m : Machine) : extend m [] [] [] = m.
Proof.
  destruct m as [[stage done ri ca errs] tr]. unfold extend. simpl.
  rewrite !app_nil_r. reflexivity.
Qed.

Lemma extend_extend (m : Machine) chs1 errs1 evs1 chs2 errs2 evs2 :
  extend (extend m chs1 errs1 evs1) chs2 errs2 evs2
    = extend m (chs1 ++ chs2) (errs1 ++ errs2) (evs1 ++ evs2).
Proof. unfold extend. simpl. rewrite !app_assoc. reflexivity. Qed.

Variable w : Collaborators.
Variable config : PipelineConfig.
Variable review_callback : option (ChapterContent -> Result bool).
Variable repo_dict : RepoDict.
Variable generation_config : GenerationConfig.

Let body := generate_chapter w config review_callback repo_dict generation_config.
Let log_from (l : list Z) (m : Machine) : list Attempt :=
  attempts w config review_callback repo_dict generation_config
           (code_analysis (state m)) l (completed_chapters (state m)).

(** One iteration does what the one-element log says, and returns. *)
Lemma generate_chapter_spec (n : Z) (m : Machine) :
  body n m =
    (inr tt, extend m (chapters_of (log_from [n] m))
                      (error_lines (failures_of (log_from [n] m)))
                      (events_of (log_from [n] m))).
Proof.
  unfold body, log_from, generate_chapter. simpl.
  destruct (agents !! n) as [agent|].
  - unfold try_except, bind, call_generate, bind, get_state, observe, lift.
    simpl.
    destruct (generate w agent repo_dict (code_analysis (state m))
                (completed_chapters (state m)) generation_config)
      as [e|chapter] eqn:Hgen; simpl.
    + destruct m as [[stage done ri ca errs] tr]. unfold extend, append_error. simpl.
      rewrite app_nil_r. reflexivity.
    + unfold review_raise. destruct review_callback as [callback|].
      * destruct (bool_decide (n ∈ review_after_chapters config)); simpl.
        -- destruct (callback chapter) as [e|approved]; simpl.
           ++ destruct m as [[stage done ri ca errs] tr]. reflexivity.
           ++ destruct m as [[stage done ri ca errs] tr]. unfold extend. simpl.
              rewrite app_nil_r. reflexivity.
        -- destruct m as [[stage done ri ca errs] tr]. unfold extend. simpl.
           rewrite app_nil_r. reflexivity.
      * destruct m as [[stage done ri ca errs] tr]. unfold extend. simpl.
        rewrite app_nil_r. reflexivity.
  - unfold ret. simpl. rewrite extend_nil. reflexivity.
Qed.

Lemma attempts_app (analysis : option (gmap string Value)) (l1 l2 : list Z) :
  forall done,
    attempts w config review_callback repo_dict generation_config analysis
             (l1 ++ l2) done
    = attempts w config review_callback repo_dict generation_config analysis l1 done
      ++ attempts w config review_callback repo_dict generation_config analysis l2
           (done ++ chapters_of
              (attempts w config review_callback repo_dict generation_config
                 analysis l1 done)).
Proof.
  induction l1 as [|n l1 IH]; intros done; simpl.
  - rewrite app_nil_r. reflexivity.
  - destruct (agents !! n) as [agent|]; [|apply IH].
    destruct (generate w agent repo_dict analysis done generation_config)
      as [e|chapter]; simpl; rewrite IH.
    + reflexivity.
    + unfold chapters_of. simpl. rewrite <- app_assoc. reflexivity.
Qed.

Lemma log_from_cons (n : Z) (l : list Z) (m : Machine) errs evs :
  log_from (n :: l) m
    = log_from [n] m ++ log_from l (extend m (chapters_of (log_from [n] m)) errs evs).
Proof.
  unfold log_from. change (n :: l) with ([n] ++ l). rewrite attempts_app.
  reflexivity.
Qed.

(** The whole loop does what the log says, and returns: no failure
    of an agent or of the review callback leaves it. *)
Lemma stage_loop_spec (l : list Z) :
  forall m,
    for_each body l m =
      (inr tt, extend m (chapters_of (log_from l m))
                        (error_lines (failures_of (log_from l m)))
                        (events_of (log_from l m))).
Proof.
  induction l as [|n l IH]; intros m.
  - unfold ret. simpl. rewrite extend_nil. reflexivity.
  - change (for_each body (n :: l) m)
      with (bind (body n) (fun _ => for_each body l) m).
    unfold bind. rewrite generate_chapter_spec, IH, extend_extend.
    rewrite (log_from_cons n l m (error_lines (failures_of (log_from [n] m)))
               (events_of (log_from [n] m))).
    unfold chapters_of, failures_of, events_of, error_lines.
    rewrite !omap_app, !fmap_app. reflexivity.
Qed.

End ChapterLoop.

(** ** What a log tells *)

Section LogFacts.

Lemma attempts_nums w config cb rd gc ca (l : list Z) :
  forall done,
    at_num <$> attempts w config cb rd gc ca l done = filter registered l.
Proof.
  induction l as [|n l IH]; intros done; [reflexivity|].
  simpl attempts. destruct (agents !! n) as [agent|] eqn:E.
  - rewrite filter_cons_True by (apply registered_is_Some; eauto).
    destruct (generate w agent rd ca done gc); simpl; rewrite IH; reflexivity.
  - rewrite filter_cons_False; [apply IH|].
    intros [a Ha]%registered_is_Some. congruence.
Qed.

Lemma attempts_well_numbered w config cb rd gc ca (l : list Z) :
  forall done, well_numbered (attempts w config cb rd gc ca l done).
Proof.
  unfold well_numbered.
  induction l as [|n l IH]; intros done; simpl; [constructor|].
  destruct (agents !! n) as [agent|] eqn:E; [|apply IH].
  destruct (generate w agent rd ca done gc) as [e|chapter] eqn:Hgen.
  - constructor; [|apply IH]. simpl. intros ? [=].
  - constructor; [|apply IH]. simpl. intros ? [= <-].
    apply generate_number in Hgen. apply agents_lookup_Some in E. lia.
Qed.

Lemma invoked_events_of (log : list Attempt) :
  invoked (events_of log) = at_num <$> log.
Proof.
  induction log as [|a log IH]; [reflexivity|].
  change (invoked (events_of (a :: log))) with (at_num a :: invoked (events_of log)).
  rewrite IH. reflexivity.
Qed.

Lemma stages_events_of (log : list Attempt) : stages (events_of log) = [].
Proof. induction log as [|a log IH]; [reflexivity | exact IH]. Qed.

Lemma chapters_of_numbers (log : list Attempt) :
  well_numbered log ->
  chapter_number <$> chapters_of log `sublist_of` at_num <$> log.
Proof.
  induction 1 as [|a log Ha _ IH]; [constructor|].
  unfold chapters_of in *. simpl. unfold produced at 1.
  destruct (at_outcome a) as [e|chapter] eqn:E.
  - apply sublist_cons. exact IH.
  - rewrite !fmap_cons, (Ha _ eq_refl). apply sublist_skip. exact IH.
Qed.

Lemma failures_of_numbers (log : list Attempt) :
  (failures_of log).*1 `sublist_of` at_num <$> log.
Proof.
  induction log as [|a log IH]; [constructor|].
  unfold failures_of in *. simpl. unfold failure at 1.
  destruct (at_outcome a) as [e|chapter]; [|destruct (at_review a) as [e|]]; simpl.
  - apply sublist_skip. exact IH.
  - apply sublist_skip. exact IH.
  - apply sublist_cons. exact IH.
Qed.

Lemma produced_in_chapters_of (log : list Attempt) (a : Attempt) chapter :
  a ∈ log -> at_outcome a = inr chapter -> chapter ∈ chapters_of log.
Proof.
  intros Hin Hout. unfold chapters_of. apply list_elem_of_omap.
  exists a. split; [exact Hin|]. unfold produced. rewrite Hout. reflexivity.
Qed.

(** A chapter whose only attempt raised is not among the chapters, and
    has exactly one failure record. *)
Lemma raised_once (log : list Attempt) (a : Attempt) (e : Exn) :
  well_numbered log -> NoDup (at_num <$> log) ->
  a ∈ log -> at_outcome a = inl e ->
  (at_num a ∉ chapter_number <$> chapters_of log) /\
  exists before after,
    failures_of log = before ++ [(at_num a, e)] ++ after /\
    (at_num a ∉ before.*1) /\ (at_num a ∉ after.*1).
Proof.
  intros Hwn Hnodup Hin Hout.
  apply list_elem_of_split in Hin as (l1 & l2 & ->).
  rewrite fmap_app, fmap_cons in Hnodup.
  apply NoDup_app in Hnodup as (_ & Hl1 & Hl2).
  apply NoDup_cons in Hl2 as (Hl2 & _).
  assert (Hl1' : at_num a ∉ at_num <$> l1).
  { intros H. apply (Hl1 _ H). left. }
  unfold well_numbered in Hwn.
  apply Forall_app in Hwn as (Hwn1 & Hwn2). apply Forall_cons in Hwn2 as (_ & Hwn2).
  assert (Hprod : produced a = None) by (unfold produced; rewrite Hout; reflexivity).
  assert (Hfail : failure a = Some (at_num a, e))
    by (unfold failure; rewrite Hout; reflexivity).
  split.
  - unfold chapters_of. rewrite omap_app. simpl. rewrite Hprod, fmap_app.
    intros [H|H]%elem_of_app.
    + apply Hl1'. eapply elem_of_sublist; [exact H|]. apply chapters_of_numbers, Hwn1.
    + apply Hl2. eapply elem_of_sublist; [exact H|]. apply chapters_of_numbers, Hwn2.
  - exists (failures_of l1), (failures_of l2). split; [|split].
    + unfold failures_of. rewrite omap_app. simpl. rewrite Hfail. reflexivity.
    + intros H. apply Hl1'. eapply elem_of_sublist; [exact H|].
      apply failures_of_numbers.
    + intros H. apply Hl2. eapply elem_of_sublist; [exact H|].
      apply failures_of_numbers.
Qed.

Lemma sublist_StronglySorted {A} (R : A -> A -> Prop) (l1 l2 : list A) :
  l1 `sublist_of` l2 -> StronglySorted R l2 -> StronglySorted R l1.
Proof.
  induction 1 as [|x l1 l2 Hsub IH|x l1 l2 Hsub IH]; intros Hsorted.
  - constructor.
  - apply StronglySorted_inv in Hsorted as (Hs & Hall). constructor; [auto|].
    rewrite Forall_forall in Hall |- *. intros y Hy. apply Hall.
    eapply elem_of_sublist; eauto.
  - apply StronglySorted_inv in Hsorted as (Hs & _). auto.
Qed.

(** Stage 3 from a machine that has the repository information: it
    returns, and the machine has grown by what the log says. *)
Lemma stage_generate_chapters_spec w config cb (m : Machine) (ri : RepositoryInfo) :
  repo_info (state m) = Some ri ->
  let log := stage_log w config cb ri m in
  _stage_generate_chapters w config cb m =
    (inr tt,
     extend (set_stage "generating_chapters" m).2
            (chapters_of log) (error_lines (failures_of log)) (events_of log)).
Proof.
  intros Hri log. unfold _stage_generate_chapters, bind, get_state.
  simpl. rewrite Hri. rewrite stage_loop_spec. reflexivity.
Qed.

End LogFacts.

(** ** Stage 3: what the loop guarantees *)

(** C9.  A requested number outside 1..7 has no agent, and its
    iteration leaves the machine as it was: no call of [generate], no
    chapter, no error entry. *)
Theorem unregistered_chapter_skipped (w : Collaborators) (config : PipelineConfig)
    (review_callback : option (ChapterContent -> Result bool))
    (repo_dict : RepoDict) (generation_config : GenerationConfig)
    (chapter_num : Z) (m : Machine) :
  ~ (1 <= chapter_num <= 7) ->
  agents !! chapter_num = None /\
  generate_chapter w config review_callback repo_dict generation_config chapter_num m
    = (inr tt, m).
Proof.
  intros Hout.
  assert (Hnone : agents !! chapter_num = None) by (apply agents_lookup_None; lia).
  split; [exact Hnone|].
  unfold generate_chapter. rewrite Hnone. reflexivity.
Qed.

Lemma unregistered_chapter_skipped_witness :
  generate_chapter (sample_world "" CompilerMissing) (sample_config [9]) None
    (repo_dict_of sample_repo) (generation_config_of (sample_config [9])) 9
    sample_analyzed
  = (inr tt, sample_analyzed).
Proof.
  apply (unregistered_chapter_skipped (sample_world "" CompilerMissing)
           (sample_config [9]) None (repo_dict_of sample_repo)
           (generation_config_of (sample_config [9])) 9 sample_analyzed).
  lia.
Defined.

(** C8.  When the agent of a requested chapter raises, the iteration
    returns, the completed chapters, the stage and the analysis results
    are what they were, and the error log has one more entry. *)
Theorem failed_chapter_only_logs_error (w : Collaborators) (config : PipelineConfig)
    (review_callback : option (ChapterContent -> Result bool))
    (repo_dict : RepoDict) (generation_config : GenerationConfig)
    (chapter_num : Z) (agent : Agent) (e : Exn) (m : Machine) :
  agents !! chapter_num = Some agent ->
  generate w agent repo_dict (code_analysis (state m)) (completed_chapters (state m))
           generation_config = inl e ->
  generate_chapter w config review_callback repo_dict generation_config chapter_num m
    = (inr tt,
       mkMachine
         (mkPipelineState (current_stage (state m)) (completed_chapters (state m))
            (repo_info (state m)) (code_analysis (state m))
            (errors (state m) ++ [chapter_error chapter_num e]))
         (trace m ++ [EvGenerate chapter_num (inl e)])).
Proof.
  intros Hagent Hraise.
  unfold generate_chapter. rewrite Hagent.
  unfold try_except, bind, call_generate, bind, get_state, observe, lift. simpl.
  rewrite Hraise. reflexivity.
Qed.

Lemma failed_chapter_only_logs_error_witness :
  generate_chapter (sample_world "chapter2_existing" CompilerMissing)
    (sample_config [2]) None (repo_dict_of sample_repo)
    (generation_config_of (sample_config [2])) 2 sample_analyzed
  = (inr tt,
     mkMachine
       (mkPipelineState "analyzing_code" [] (Some sample_repo) (Some ∅)
          ["Chapter 2: quota exceeded"])
       [EvStage "analyzing_repository"; EvStage "analyzing_code";
        EvGenerate 2 (inl (mkExn OtherException "quota exceeded"))]).
Proof.
  apply (failed_chapter_only_logs_error
           (sample_world "chapter2_existing" CompilerMissing) (sample_config [2]) None
           (repo_dict_of sample_repo) (generation_config_of (sample_config [2]))
           2 ExistingMethodsAgent (mkExn OtherException "quota exceeded")
           sample_analyzed); reflexivity.
Defined.

(** C1, as stated, fails: for the request [2; 1], a valid non-empty
    subset of 1..7, with every collaborator answering, the run calls the
    agents of chapters 2 and 1 in that order and appends their chapters
    in that order, which is not ascending. *)
Lemma chapters_generated_out_of_order :
  let m' := (run (sample_world "" CompilerMissing) (sample_config [2; 1]) sample_dir
                 None initial_machine).2 in
  invoked (trace m') = [2; 1] /\
  chapter_number <$> completed_chapters (state m') = [2; 1] /\
  ~ ascending (invoked (trace m')) /\
  ~ ascending (chapter_number <$> completed_chapters (state m')).
Proof.
  assert (Hno : ~ ascending [2; 1]).
  { intros H. apply StronglySorted_inv in H as (_ & H).
    apply Forall_inv in H. lia. }
  split; [vm_compute; reflexivity|]. split; [vm_compute; reflexivity|].
  split.
  - replace (invoked _) with [2; 1] by (vm_compute; reflexivity). exact Hno.
  - replace (chapter_number <$> _) with [2; 1] by (vm_compute; reflexivity). exact Hno.
Qed.

(** C1, amended.  Stage 3, started with the repository information in
    place, returns; it calls [generate] once for each requested number
    that has an agent, in the order of the request list, and appends the
    chapters produced in that same order.  The order is ascending when
    the request list is given in ascending order. *)
Theorem chapters_follow_request_order (w : Collaborators) (config : PipelineConfig)
    (review_callback : option (ChapterContent -> Result bool))
    (m : Machine) (ri : RepositoryInfo) :
  repo_info (state m) = Some ri ->
  let log := stage_log w config review_callback ri m in
  let r := _stage_generate_chapters w config review_callback m in
  r.1 = inr tt /\
  trace r.2 = trace m ++ EvStage "generating_chapters" :: events_of log /\
  invoked (events_of log) = filter registered (include_chapters config) /\
  completed_chapters (state r.2) = completed_chapters (state m) ++ chapters_of log /\
  chapter_number <$> chapters_of log
    `sublist_of` filter registered (include_chapters config) /\
  filter registered (include_chapters config) `sublist_of` include_chapters config /\
  (ascending (include_chapters config) ->
   ascending (invoked (events_of log)) /\
   ascending (chapter_number <$> chapters_of log)).
Proof.
  intros Hri log r.
  assert (Hnums : at_num <$> log = filter registered (include_chapters config))
    by apply attempts_nums.
  assert (Hsub : chapter_number <$> chapters_of log
                   `sublist_of` filter registered (include_chapters config)).
  { rewrite <- Hnums. apply chapters_of_numbers, attempts_well_numbered. }
  assert (Hfilter : filter registered (include_chapters config)
                      `sublist_of` include_chapters config)
    by apply sublist_filter.
  unfold r. rewrite (stage_generate_chapters_spec w config review_callback m ri Hri).
  fold log. simpl.
  split; [reflexivity|]. split; [rewrite <- app_assoc; reflexivity|].
  split; [rewrite invoked_events_of; exact Hnums|].
  split; [reflexivity|]. split; [exact Hsub|]. split; [exact Hfilter|].
  intros Hasc. rewrite invoked_events_of, Hnums. unfold ascending in *. split.
  - eapply sublist_StronglySorted; eassumption.
  - eapply sublist_StronglySorted; [|exact Hasc]. etransitivity; eassumption.
Qed.

Lemma chapters_follow_request_order_witness :
  let config := sample_config [1; 2; 3] in
  let w := sample_world "" CompilerMissing in
  invoked (events_of (stage_log w config None sample_repo sample_analyzed))
    = filter registered (include_chapters config).
Proof.
  intros config w.
  apply (chapters_follow_request_order w config None sample_analyzed sample_repo).
  reflexivity.
Defined.

(** C2, as stated, fails on the order: for the request [3; 2; 1] with
    the agent of chapter 2 raising, chapters 3 and 1 are generated and
    the final list is 3, 1, which is not ascending. *)
Lemma failure_isolated_but_not_sorted :
  let w := sample_world "chapter2_existing" CompilerMissing in
  let m' := (run w (sample_config [3; 2; 1]) sample_dir None initial_machine).2 in
  EvGenerate 2 (inl (mkExn OtherException "quota exceeded")) ∈ trace m' /\
  chapter_number <$> completed_chapters (state m') = [3; 1] /\
  ~ ascending (chapter_number <$> completed_chapters (state m')).
Proof.
  split; [|split].
  - vm_compute. do 4 apply list_elem_of_further. apply list_elem_of_here.
  - vm_compute. reflexivity.
  - replace (chapter_number <$> _) with [3; 1] by (vm_compute; reflexivity).
    intros H. apply StronglySorted_inv in H as (_ & H).
    apply Forall_inv in H. lia.
Qed.

(** C2, amended.  Let the request list have no duplicates and let the
    [generate] call for chapter K raise [e] during stage 3.  Then the
    stage returns; [generate] is called for every requested number that
    has an agent, those after K included; no appended chapter has number
    K; every chapter that a call produced is appended, in the order of
    the request (ascending when the request is ascending); and the error
    log grows by one line per failure, exactly one of which is for K. *)
Theorem chapter_failure_isolated (w : Collaborators) (config : PipelineConfig)
    (review_callback : option (ChapterContent -> Result bool))
    (m : Machine) (ri : RepositoryInfo) (K : Z) (e : Exn) :
  repo_info (state m) = Some ri ->
  NoDup (include_chapters config) ->
  let log := stage_log w config review_callback ri m in
  let r := _stage_generate_chapters w config review_callback m in
  EvGenerate K (inl e) ∈ events_of log ->
  r.1 = inr tt /\
  trace r.2 = trace m ++ EvStage "generating_chapters" :: events_of log /\
  invoked (events_of log) = filter registered (include_chapters config) /\
  completed_chapters (state r.2) = completed_chapters (state m) ++ chapters_of log /\
  (K ∉ chapter_number <$> chapters_of log) /\
  (forall n chapter,
      EvGenerate n (inr chapter) ∈ events_of log -> chapter ∈ chapters_of log) /\
  chapter_number <$> chapters_of log `sublist_of` include_chapters config /\
  (ascending (include_chapters config) ->
   ascending (chapter_number <$> chapters_of log)) /\
  exists before after,
    errors (state r.2)
      = errors (state m) ++ error_lines (before ++ [(K, e)] ++ after) /\
    (K ∉ before.*1) /\ (K ∉ after.*1).
Proof.
  intros Hri Hnodup log r Hraised.
  assert (Hwn : well_numbered log) by apply attempts_well_numbered.
  assert (Hnums : at_num <$> log = filter registered (include_chapters config))
    by apply attempts_nums.
  assert (Hreq : at_num <$> log `sublist_of` include_chapters config).
  { rewrite Hnums. apply sublist_filter. }
  assert (Hsub : chapter_number <$> chapters_of log `sublist_of` include_chapters config).
  { etransitivity; [apply chapters_of_numbers, Hwn | exact Hreq]. }
  assert (Hnd : NoDup (at_num <$> log)).
  { eapply sublist_NoDup; eassumption. }
  apply list_elem_of_fmap in Hraised as (a & [= HK Hout] & Hin).
  destruct (raised_once log a e Hwn Hnd Hin (eq_sym Hout))
    as (Habsent & before & after & Hfail & Hb & Ha).
  rewrite <- HK in Habsent, Hfail, Hb, Ha.
  unfold r. rewrite (stage_generate_chapters_spec w config review_callback m ri Hri).
  fold log. simpl.
  split; [reflexivity|]. split; [rewrite <- app_assoc; reflexivity|].
  split; [rewrite invoked_events_of; exact Hnums|].
  split; [reflexivity|]. split; [exact Habsent|]. split; [|split; [|split]].
  - intros n chapter (a' & [= Hn' Hout'] & Hin')%list_elem_of_fmap.
    eapply produced_in_chapters_of; eauto.
  - exact Hsub.
  - intros Hasc. unfold ascending in *. eapply sublist_StronglySorted; eassumption.
  - exists before, after. split; [|split; assumption].
    rewrite Hfail. reflexivity.
Qed.

Lemma chapter_failure_isolated_witness :
  let w := sample_world "chapter2_existing" CompilerMissing in
  let config := sample_config [1; 2; 3] in
  2 ∉ chapter_number <$> chapters_of (stage_log w config None sample_repo sample_analyzed).
Proof.
  intros w config.
  apply (chapter_failure_isolated w config None sample_analyzed sample_repo 2
           (mkExn OtherException "quota exceeded")).
  - reflexivity.
  - apply (bool_decide_unpack _). vm_compute. exact I.
  - vm_compute. apply list_elem_of_further, list_elem_of_here.
Defined.

(** ** Stages 1, 2 and 4 *)

(** C3.  When stage 1 raises [e], the run raises [e] to its caller with
    [str(e)] appended to the error log; the only thing that happened is
    the entry into [analyzing_repository]: no agent was called and the
    stage [generating_chapters] was never entered. *)
Theorem repository_failure_aborts_run (w : Collaborators) (config : PipelineConfig)
    (project_dir : Path) (review_callback : option (ChapterContent -> Result bool))
    (m : Machine) (e : Exn) :
  stage1_raises w config project_dir e ->
  let r := run w config project_dir review_callback m in
  r = (inl e,
       mkMachine
         (mkPipelineState "analyzing_repository" (completed_chapters (state m))
            (repo_info (state m)) (code_analysis (state m))
            (errors (state m) ++ [exn_str e]))
         (trace m ++ [EvStage "analyzing_repository"])) /\
  invoked (trace r.2) = invoked (trace m) /\
  stages (trace r.2) = stages (trace m) ++ ["analyzing_repository"] /\
  current_stage (state r.2) = "analyzing_repository".
Proof.
  intros Hraise r.
  assert (Hr : r = (inl e,
       mkMachine
         (mkPipelineState "analyzing_repository" (completed_chapters (state m))
            (repo_info (state m)) (code_analysis (state m))
            (errors (state m) ++ [exn_str e]))
         (trace m ++ [EvStage "analyzing_repository"]))).
  { unfold r, run, try_except, bind, _stage_analyze_repository, try_except, bind,
      lift, raise, set_stage, append_error. simpl.
    destruct Hraise as [Hclone|[Hclone Hextract]].
    - rewrite Hclone. reflexivity.
    - rewrite Hclone, Hextract. reflexivity. }
  split; [exact Hr|]. rewrite Hr. simpl. unfold invoked, stages.
  rewrite !omap_app. simpl. rewrite app_nil_r. repeat split.
Qed.

Lemma repository_failure_aborts_run_witness :
  let w := mkCollaborators
             (fun _ _ => inl (mkExn GitCommandError "repository not found"))
             (git_extract_info (sample_world "" CompilerMissing))
             (code_analyze (sample_world "" CompilerMissing))
             (literature_search (sample_world "" CompilerMissing))
             (prompts_render (sample_world "" CompilerMissing))
             (llm_generate (sample_world "" CompilerMissing))
             (gather (sample_world "" CompilerMissing))
             (extract_equations (sample_world "" CompilerMissing))
             (mkdir (sample_world "" CompilerMissing))
             (md_write_text (sample_world "" CompilerMissing))
             (tex_write_text (sample_world "" CompilerMissing))
             (run_compiler (sample_world "" CompilerMissing)) in
  invoked (trace (run w (sample_config [1; 2; 3]) sample_dir None initial_machine).2)
    = invoked (trace initial_machine).
Proof.
  intros w.
  apply (repository_failure_aborts_run w (sample_config [1; 2; 3]) sample_dir None
           initial_machine (mkExn GitCommandError "repository not found")).
  left. reflexivity.
Defined.

(** C7.  Stage 2 raises [RuntimeError] when the repository information
    is not set.  When it is set, the stage calls the analyzer once on the
    local path; if that raises, so does the stage; otherwise the stage
    returns and the analysis result it stores is the analyzer's with
    ["languages"] bound to the languages of the repository information. *)
Theorem stage_analyze_code_spec (w : Collaborators) (m : Machine) :
  let entered := (set_stage "analyzing_code" m).2 in
  _stage_analyze_code w m =
    match repo_info (state m) with
    | None => (inl (mkExn RuntimeError "Repository not analyzed"), entered)
    | Some ri =>
        match code_analyze w (ri_local_path ri) with
        | inl e => (inl e, entered)
        | inr ca =>
            (inr tt,
             (set_code_analysis (<["languages" := int_dict (ri_languages ri)]> ca)
                                entered).2)
        end
    end /\
  (forall m', _stage_analyze_code w m = (inr tt, m') ->
     exists ri ca,
       repo_info (state m) = Some ri /\
       repo_info (state m') = Some ri /\
       code_analysis (state m') = Some ca /\
       ca !! "languages" = Some (int_dict (ri_languages ri))).
Proof.
  intros entered.
  assert (Heq : _stage_analyze_code w m =
    match repo_info (state m) with
    | None => (inl (mkExn RuntimeError "Repository not analyzed"), entered)
    | Some ri =>
        match code_analyze w (ri_local_path ri) with
        | inl e => (inl e, entered)
        | inr ca =>
            (inr tt,
             (set_code_analysis (<["languages" := int_dict (ri_languages ri)]> ca)
                                entered).2)
        end
    end).
  { unfold entered, _stage_analyze_code, bind, get_state, raise, lift.
    destruct m as [[stage done [ri|] ca0 errs] tr]; simpl; [|reflexivity].
    destruct (code_analyze w (ri_local_path ri)) as [e|ca]; reflexivity. }
  split; [exact Heq|].
  intros m' Hrun. rewrite Heq in Hrun.
  destruct (repo_info (state m)) as [ri|] eqn:Hri; [|discriminate Hrun].
  destruct (code_analyze w (ri_local_path ri)) as [e|ca]; [discriminate Hrun|].
  injection Hrun as <-.
  exists ri, (<["languages" := int_dict (ri_languages ri)]> ca). simpl.
  repeat split; [exact Hri | apply lookup_insert_eq].
Qed.

(** The encoding of a [dict[str, int]] loses nothing: equal values come
    from equal language tables. *)
Lemma int_dict_inj (d1 d2 : list (string * Z)) : int_dict d1 = int_dict d2 -> d1 = d2.
Proof.
  unfold int_dict. intros [= H]. revert d2 H.
  induction d1 as [|[k v] d1 IH]; intros [|[k' v'] d2] H; try discriminate H.
  - reflexivity.
  - rewrite !fmap_cons in H. injection H as -> -> H. f_equal. apply IH, H.
Qed.

Lemma stage_analyze_code_spec_witness :
  exists ca,
    code_analysis (state (_stage_analyze_code (sample_world "" CompilerMissing)
                            sample_cloned).2) = Some ca /\
    ca !! "languages" = Some (int_dict [("Python", 10)]).
Proof.
  destruct (proj2 (stage_analyze_code_spec (sample_world "" CompilerMissing)
                     sample_cloned) _ eq_refl)
    as (ri & ca & Hri & _ & Hca & Hlang).
  injection Hri as <-. exists ca. split; [exact Hca | exact Hlang].
Defined.

(** C5, as stated, fails: with the compiler missing and the LaTeX file
    written, the run returns the path of [paper.md], not a path whose
    last component is the LaTeX file. *)
Lemma pdf_failure_returns_markdown_not_latex :
  let w := sample_world "" CompilerMissing in
  let config := sample_config [1; 2; 3] in
  let tex_path := child (PyPath.join sample_dir (output_dir config)) "paper.tex" in
  let r := run w config sample_dir None initial_machine in
  pdf_fails w tex_path /\
  (forall chapters, tex_write_text w tex_path chapters = inr tt) /\
  r.1 = inr (mkPath true ["w"; "output"; "paper.md"]) /\
  ~ (exists p, r.1 = inr p /\ name p = "paper.tex").
Proof.
  split; [left; reflexivity|]. split; [reflexivity|].
  split; [vm_compute; reflexivity|].
  intros (p & Hp & Hname). vm_compute in Hp. injection Hp as <-.
  vm_compute in Hname. discriminate Hname.
Qed.

(** C5, amended.  Let the first three stages return, the output
    directory be creatable and both the Markdown and the LaTeX file be
    written.  When the PDF compilation fails (no compiler, or no PDF
    produced), the run returns, without raising, the path of
    [paper.md] in the output directory: neither the LaTeX nor a PDF
    path. *)
Theorem pdf_failure_returns_markdown (w : Collaborators) (config : PipelineConfig)
    (project_dir : Path) (review_callback : option (ChapterContent -> Result bool))
    (m0 m : Machine) :
  let out := PyPath.join project_dir (output_dir config) in
  let md_path := child out "paper.md" in
  let tex_path := child out "paper.tex" in
  bind (_stage_analyze_repository w config project_dir) (fun _ =>
    bind (_stage_analyze_code w) (fun _ =>
      _stage_generate_chapters w config review_callback)) m0 = (inr tt, m) ->
  mkdir w out = inr tt ->
  md_write_text w md_path (completed_chapters (state m)) = inr tt ->
  tex_write_text w tex_path (completed_chapters (state m)) = inr tt ->
  pdf_fails w tex_path ->
  compile_pdf w tex_path = inr None /\
  _stage_generate_output w config project_dir m
    = (inr md_path, (set_stage "generating_output" m).2) /\
  run w config project_dir review_callback m0
    = (inr md_path, (set_stage "generating_output" m).2) /\
  name md_path = "paper.md".
Proof.
  intros out md_path tex_path Hstages Hmkdir Hmd Htex Hpdf.
  assert (Hcompile : compile_pdf w tex_path = inr None).
  { unfold compile_pdf. destruct Hpdf as [-> | ->]; [reflexivity|].
    unfold with_suffix_name, name, tex_path, child. simpl.
    rewrite last_last. reflexivity. }
  assert (Hout : _stage_generate_output w config project_dir m
                 = (inr md_path, (set_stage "generating_output" m).2)).
  { unfold _stage_generate_output, bind, lift, get_state, ret. simpl.
    fold out. rewrite Hmkdir. fold md_path. rewrite Hmd.
    fold tex_path. rewrite Htex, Hcompile. reflexivity. }
  split; [exact Hcompile|]. split; [exact Hout|]. split.
  - unfold run, try_except. unfold bind in Hstages |- *.
    destruct (_stage_analyze_repository w config project_dir m0) as [[e1|[]] m1];
      [discriminate Hstages|].
    destruct (_stage_analyze_code w m1) as [[e2|[]] m2]; [discriminate Hstages|].
    rewrite Hstages, Hout. reflexivity.
  - unfold md_path, name, child. simpl. apply last_last.
Qed.

Lemma pdf_failure_returns_markdown_witness :
  let w := sample_world "" CompilerMissing in
  let config := sample_config [1; 2; 3] in
  exists m,
    run w config sample_dir None initial_machine
      = (inr (child (PyPath.join sample_dir (output_dir config)) "paper.md"),
         (set_stage "generating_output" m).2).
Proof.
  intros w config.
  exists (bind (_stage_analyze_repository w config sample_dir) (fun _ =>
            bind (_stage_analyze_code w) (fun _ =>
              _stage_generate_chapters w config None)) initial_machine).2.
  apply (pdf_failure_returns_markdown w config sample_dir None initial_machine).
  - vm_compute. reflexivity.
  - reflexivity.
  - reflexivity.
  - reflexivity.
  - left. reflexivity.
Defined.

(** ** The Introduction agent *)

(** C6.  When the literature search raises, [_research_literature]
    returns the placeholder (summary "Literature search unavailable", no
    findings, no references) instead of raising, and [generate] goes on
    with it: it builds the context from the placeholder, calls the model
    and returns the chapter, with no references. *)
Theorem literature_failure_substituted (w : Collaborators) (repo_info : RepoDict)
    (code_analysis : option (gmap string Value))
    (previous_chapters : list ChapterContent) (config : GenerationConfig) (e : Exn) :
  let query := literature_query repo_info (gc_research_keywords config) in
  literature_search w query 10 = inl e ->
  _research_literature w repo_info (gc_research_keywords config)
    = inr (mkSearchResults query [] "Literature search unavailable" [] []) /\
  generate w IntroductionAgent repo_info code_analysis previous_chapters config
    = rbind (language_names code_analysis) (fun main_technologies =>
      rbind (_call_llm w IntroductionAgent
               (introduction_context repo_info main_technologies
                  (mkSearchResults query [] "Literature search unavailable" [] [])
                  config))
            (fun content =>
               inr (mkChapterContent 1 "Introduction" content [] [] [] [] []))).
Proof.
  intros query Hraise.
  assert (Hlit : _research_literature w repo_info (gc_research_keywords config)
                 = inr (mkSearchResults query [] "Literature search unavailable" [] [])).
  { unfold _research_literature. fold query. rewrite Hraise. reflexivity. }
  split; [exact Hlit|].
  simpl. unfold introduction_generate. rewrite Hlit. reflexivity.
Qed.

Lemma literature_failure_substituted_witness :
  generate (sample_world "" CompilerMissing) IntroductionAgent
    (repo_dict_of sample_repo) (Some ∅) []
    (generation_config_of (sample_config [1]))
  = inr (mkChapterContent 1 "Introduction" "Body of chapter1_intro" [] [] [] [] []).
Proof.
  destruct (literature_failure_substituted (sample_world "" CompilerMissing)
              (repo_dict_of sample_repo) (Some ∅) []
              (generation_config_of (sample_config [1]))
              (mkExn OtherException "network down") eq_refl) as [_ H].
  rewrite H. reflexivity.
Defined.

(** ** The run as a whole *)

Section RunFacts.

Variable w : Collaborators.
Variable config : PipelineConfig.
Variable project_dir : Path.
Variable review_callback : option (ChapterContent -> Result bool).

(** [run] is the four stages in sequence; the first that raises sends
    the run to its [except] branch. *)
Lemma run_unfold (m : Machine) :
  run w config project_dir review_callback m =
    match _stage_analyze_repository w config project_dir m with
    | (inl e, m1) => fail_with e m1
    | (inr _, m1) =>
        match _stage_analyze_code w m1 with
        | (inl e, m2) => fail_with e m2
        | (inr _, m2) =>
            match _stage_generate_chapters w config review_callback m2 with
            | (inl e, m3) => fail_with e m3
            | (inr _, m3) =>
                match _stage_generate_output w config project_dir m3 with
                | (inl e, m4) => fail_with e m4
                | (inr p, m4) => (inr p, m4)
                end
            end
        end
    end.
Proof.
  unfold run, try_except, bind at 1 2 3.
  destruct (_stage_analyze_repository w config project_dir m) as [[e1|[]] m1];
    [reflexivity|].
  destruct (_stage_analyze_code w m1) as [[e2|[]] m2]; [reflexivity|].
  destruct (_stage_generate_chapters w config review_callback m2) as [[e3|[]] m3];
    [reflexivity|].
  destruct (_stage_generate_output w config project_dir m3) as [[e4|p] m4];
    reflexivity.
Qed.

Lemma stage1_enters (m : Machine) :
  enters "analyzing_repository" m (_stage_analyze_repository w config project_dir m).2.
Proof.
  unfold enters, _stage_analyze_repository, try_except, bind, lift, raise. simpl.
  destruct (git_clone w _ _) as [e|[]]; simpl; [repeat split|].
  destruct (git_extract_info w _ _) as [e|ri]; simpl; repeat split.
Qed.

Lemma stage1_sets_repo_info (m m1 : Machine) :
  _stage_analyze_repository w config project_dir m = (inr tt, m1) ->
  exists ri, repo_info (state m1) = Some ri.
Proof.
  unfold _stage_analyze_repository, try_except, bind, lift, raise. simpl.
  destruct (git_clone w _ _) as [e|[]]; simpl; [discriminate|].
  destruct (git_extract_info w _ _) as [e|ri]; simpl; [discriminate|].
  intros [= <-]. exists ri. reflexivity.
Qed.

Lemma stage2_enters (m : Machine) :
  enters "analyzing_code" m (_stage_analyze_code w m).2 /\
  repo_info (state (_stage_analyze_code w m).2) = repo_info (state m).
Proof.
  unfold enters, _stage_analyze_code, bind, get_state, lift, raise. simpl.
  destruct (repo_info (state m)) as [ri|] eqn:Hri; simpl; [|repeat split; auto].
  destruct (code_analyze w (ri_local_path ri)) as [e|ca]; simpl; repeat split; auto.
Qed.

Lemma stage4_enters (m : Machine) :
  enters "generating_output" m (_stage_generate_output w config project_dir m).2.
Proof.
  unfold enters, _stage_generate_output, bind, get_state, lift, ret. simpl.
  destruct (mkdir w _) as [e|[]]; simpl; [repeat split|].
  destruct (md_write_text w _ _) as [e|[]]; simpl; [repeat split|].
  destruct (tex_write_text w _ _) as [e|[]]; simpl; [repeat split|].
  destruct (compile_pdf w _) as [e|[p|]]; simpl; repeat split.
Qed.

Lemma stages_app (a b : list Event) : stages (a ++ b) = stages a ++ stages b.
Proof. unfold stages. apply omap_app. Qed.

Lemma invoked_app (a b : list Event) : invoked (a ++ b) = invoked a ++ invoked b.
Proof. unfold invoked. apply omap_app. Qed.

(** The shape of every run: it enters the stages in their order and
    stops in the one that raises, or in the last; chapters, error log
    and trace only grow; a raise is the last line of the error log. *)
Lemma run_effect (m : Machine) :
  let r := run w config project_dir review_callback m in
  exists (k : nat) (log : list Attempt),
    (1 <= k <= 4)%nat /\
    stages (trace r.2) = stages (trace m) ++ take k all_stages /\
    last (take k all_stages) = Some (current_stage (state r.2)) /\
    invoked (trace r.2) = invoked (trace m) ++ (at_num <$> log) /\
    completed_chapters (state r.2) = completed_chapters (state m) ++ chapters_of log /\
    errors (state r.2)
      = errors (state m) ++ error_lines (failures_of log)
          ++ match r.1 with
             | inl e => [exn_str e]
             | inr _ => []
             end /\
    at_num <$> log `sublist_of` include_chapters config /\
    well_numbered log /\
    match r.1 with
    | inr _ => k = 4%nat
    | inl _ => (k < 3)%nat -> log = []
    end.
Proof.
  intros r. unfold r. rewrite run_unfold.
  pose proof (stage1_enters m) as (T1 & C1 & D1 & E1).
  destruct (_stage_analyze_repository w config project_dir m) as [[e1|[]] m1] eqn:H1;
    simpl in T1, C1, D1, E1.
  { exists 1%nat, []. simpl. rewrite T1, C1, D1, E1, stages_app, invoked_app.
    simpl. rewrite !app_nil_r.
    repeat split; try reflexivity; try lia;
      first [apply sublist_nil_l | constructor]. }
  destruct (stage1_sets_repo_info m m1 H1) as [ri Hri].
  pose proof (stage2_enters m1) as ((T2 & C2 & D2 & E2) & R2).
  destruct (_stage_analyze_code w m1) as [[e2|[]] m2] eqn:H2;
    simpl in T2, C2, D2, E2, R2.
  { exists 2%nat, []. simpl. rewrite T2, C2, D2, E2, T1, D1, E1.
    rewrite !stages_app, !invoked_app. simpl. rewrite !app_nil_r, <- !app_assoc.
    repeat split; try reflexivity; try lia;
      first [apply sublist_nil_l | constructor]. }
  rewrite Hri in R2.
  rewrite (stage_generate_chapters_spec w config review_callback m2 ri R2).
  set (log := stage_log w config review_callback ri m2).
  set (m3 := extend (set_stage "generating_chapters" m2).2 (chapters_of log)
               (error_lines (failures_of log)) (events_of log)).
  assert (Hsub : at_num <$> log `sublist_of` include_chapters config).
  { unfold log, stage_log. rewrite attempts_nums. apply sublist_filter. }
  assert (Hwn : well_numbered log) by apply attempts_well_numbered.
  assert (T3 : trace m3 = trace m ++ [EvStage "analyzing_repository";
                 EvStage "analyzing_code"; EvStage "generating_chapters"]
                 ++ events_of log).
  { unfold m3. simpl. rewrite T2, T1, <- !app_assoc. reflexivity. }
  assert (D3 : completed_chapters (state m3)
               = completed_chapters (state m) ++ chapters_of log).
  { unfold m3. simpl. rewrite D2, D1. reflexivity. }
  assert (E3 : errors (state m3)
               = errors (state m) ++ error_lines (failures_of log)).
  { unfold m3. simpl. rewrite E2, E1. reflexivity. }
  clearbody m3.
  pose proof (stage4_enters m3) as (T4 & C4 & D4 & E4).
  destruct (_stage_generate_output w config project_dir m3) as [[e4|p] m4] eqn:H4;
    simpl in T4, C4, D4, E4.
  - exists 4%nat, log. simpl. rewrite T4, C4, D4, E4, T3, D3, E3.
    rewrite !stages_app, !invoked_app, stages_events_of, invoked_events_of.
    simpl. rewrite !app_nil_r, <- !app_assoc.
    repeat split; try reflexivity; try lia; try assumption.
  - exists 4%nat, log. simpl. rewrite T4, C4, D4, E4, T3, D3, E3.
    rewrite !stages_app, !invoked_app, stages_events_of, invoked_events_of.
    simpl. rewrite !app_nil_r, <- !app_assoc.
    repeat split; try reflexivity; try lia; try assumption.
Qed.

End RunFacts.

(** X1.  The stages are entered in their fixed order, each at most once, and
    never left backwards: a run started in machine [m] enters the first
    [k] stages, [k] between 1 and 4, ends with the tag of the last one
    entered, and has entered all four when it returns. *)
Theorem run_stages_in_order (w : Collaborators) (config : PipelineConfig)
    (project_dir : Path) (review_callback : option (ChapterContent -> Result bool))
    (m : Machine) :
  let r := run w config project_dir review_callback m in
  exists k : nat,
    (1 <= k <= 4)%nat /\
    stages (trace r.2) = stages (trace m) ++ take k all_stages /\
    last (take k all_stages) = Some (current_stage (state r.2)) /\
    (forall p, r.1 = inr p -> k = 4%nat).
Proof.
  intros r.
  destruct (run_effect w config project_dir review_callback m)
    as (k & log & Hk & Hstages & Hlast & _ & _ & _ & _ & _ & Hend).
  exists k. fold r in Hstages, Hlast, Hend.
  split; [exact Hk|]. split; [exact Hstages|]. split; [exact Hlast|].
  intros p Hp. rewrite Hp in Hend. exact Hend.
Qed.

(** X2.  A run only appends: the chapters and the error log it starts with
    are prefixes of the ones it ends with, whether it returns or raises;
    the numbers of the chapters it adds are taken from the request, in
    the order of the request. *)
Theorem run_appends_only (w : Collaborators) (config : PipelineConfig)
    (project_dir : Path) (review_callback : option (ChapterContent -> Result bool))
    (m : Machine) :
  let r := run w config project_dir review_callback m in
  exists new_chapters new_errors,
    completed_chapters (state r.2) = completed_chapters (state m) ++ new_chapters /\
    errors (state r.2) = errors (state m) ++ new_errors /\
    chapter_number <$> new_chapters `sublist_of` include_chapters config /\
    (length new_chapters <= length (include_chapters config))%nat.
Proof.
  intros r.
  destruct (run_effect w config project_dir review_callback m)
    as (k & log & _ & _ & _ & _ & Hdone & Herr & Hsub & Hwn & _).
  fold r in Hdone, Herr.
  assert (Hnums : chapter_number <$> chapters_of log `sublist_of` include_chapters config).
  { etransitivity; [apply chapters_of_numbers, Hwn | exact Hsub]. }
  exists (chapters_of log), (error_lines (failures_of log)
                              ++ match r.1 with inl e => [exn_str e] | inr _ => [] end).
  split; [exact Hdone|]. split; [exact Herr|]. split; [exact Hnums|].
  apply sublist_length in Hnums. rewrite length_fmap in Hnums. exact Hnums.
Qed.

(** X3.  Whatever stage raises, the exception that leaves [run] is the last
    line of the error log. *)
Theorem fatal_error_recorded_last (w : Collaborators) (config : PipelineConfig)
    (project_dir : Path) (review_callback : option (ChapterContent -> Result bool))
    (m m' : Machine) (e : Exn) :
  run w config project_dir review_callback m = (inl e, m') ->
  last (errors (state m')) = Some (exn_str e).
Proof.
  intros Hrun.
  destruct (run_effect w config project_dir review_callback m)
    as (k & log & _ & _ & _ & _ & _ & Herr & _).
  rewrite Hrun in Herr. simpl in Herr.
  rewrite Herr, !app_assoc. apply last_snoc.
Qed.

Lemma fatal_error_recorded_last_witness :
  let w := mkCollaborators
             (git_clone (sample_world "" CompilerMissing))
             (git_extract_info (sample_world "" CompilerMissing))
             (fun _ => inl (mkExn OtherException "cannot read"))
             (literature_search (sample_world "" CompilerMissing))
             (prompts_render (sample_world "" CompilerMissing))
             (llm_generate (sample_world "" CompilerMissing))
             (gather (sample_world "" CompilerMissing))
             (extract_equations (sample_world "" CompilerMissing))
             (mkdir (sample_world "" CompilerMissing))
             (md_write_text (sample_world "" CompilerMissing))
             (tex_write_text (sample_world "" CompilerMissing))
             (run_compiler (sample_world "" CompilerMissing)) in
  last (errors (state (run w (sample_config [1]) sample_dir None initial_machine).2))
    = Some "cannot read".
Proof.
  intros w.
  apply (fatal_error_recorded_last w (sample_config [1]) sample_dir None
           initial_machine _ (mkExn OtherException "cannot read")).
  vm_compute. reflexivity.
Defined.

(** X4.  When the run returns, every line it added to the error log is the
    line of a requested chapter: [f"Chapter {n}: {e}"] with [n] taken
    from the request, in the order of the request. *)
Theorem returned_run_logs_chapter_errors_only (w : Collaborators)
    (config : PipelineConfig) (project_dir : Path)
    (review_callback : option (ChapterContent -> Result bool))
    (m m' : Machine) (p : Path) :
  run w config project_dir review_callback m = (inr p, m') ->
  exists failures : list (Z * Exn),
    errors (state m') = errors (state m) ++ error_lines failures /\
    failures.*1 `sublist_of` include_chapters config.
Proof.
  intros Hrun.
  destruct (run_effect w config project_dir review_callback m)
    as (k & log & _ & _ & _ & _ & _ & Herr & Hsub & _).
  rewrite Hrun in Herr. simpl in Herr. rewrite app_nil_r in Herr.
  exists (failures_of log). split; [exact Herr|].
  etransitivity; [apply failures_of_numbers | exact Hsub].
Qed.

Lemma returned_run_logs_chapter_errors_only_witness :
  exists failures : list (Z * Exn),
    errors (state (run (sample_world "chapter2_existing" CompilerMissing)
                       (sample_config [1; 2; 3]) sample_dir None initial_machine).2)
      = errors (state initial_machine) ++ error_lines failures /\
    failures.*1 `sublist_of` [1; 2; 3].
Proof.
  apply (returned_run_logs_chapter_errors_only
           (sample_world "chapter2_existing" CompilerMissing)
           (sample_config [1; 2; 3]) sample_dir None initial_machine _
           (mkPath true ["w"; "output"; "paper.md"])).
  vm_compute. reflexivity.
Defined.

(** X5.  A failure of the code analysis is fatal: when cloning and extraction
    succeed and the analyzer raises [e], the run raises [e], records it,
    stops in [analyzing_code] with the repository information in place,
    and has called no agent and completed no chapter. *)
Theorem analysis_failure_aborts_run (w : Collaborators) (config : PipelineConfig)
    (project_dir : Path) (review_callback : option (ChapterContent -> Result bool))
    (m : Machine) (ri : RepositoryInfo) (e : Exn) :
  let clone_dir := child (child project_dir ".awp") "repo" in
  git_clone w (github_url config) clone_dir = inr tt ->
  git_extract_info w (github_url config) clone_dir = inr ri ->
  code_analyze w (ri_local_path ri) = inl e ->
  let r := run w config project_dir review_callback m in
  r.1 = inl e /\
  current_stage (state r.2) = "analyzing_code" /\
  repo_info (state r.2) = Some ri /\
  code_analysis (state r.2) = code_analysis (state m) /\
  completed_chapters (state r.2) = completed_chapters (state m) /\
  errors (state r.2) = errors (state m) ++ [exn_str e] /\
  invoked (trace r.2) = invoked (trace m) /\
  stages (trace r.2) = stages (trace m) ++ ["analyzing_repository"; "analyzing_code"].
Proof.
  intros clone_dir Hclone Hextract Hanalyze r.
  unfold r. rewrite run_unfold.
  unfold _stage_analyze_repository, try_except, bind, lift, raise. simpl.
  fold clone_dir. rewrite Hclone, Hextract. simpl.
  unfold _stage_analyze_code, bind, get_state, lift, raise. simpl.
  rewrite Hanalyze. simpl.
  rewrite <- !app_assoc, !stages_app, !invoked_app. simpl. rewrite app_nil_r.
  repeat split.
Qed.

Lemma analysis_failure_aborts_run_witness :
  let w := mkCollaborators
             (git_clone (sample_world "" CompilerMissing))
             (git_extract_info (sample_world "" CompilerMissing))
             (fun _ => inl (mkExn OtherException "cannot read"))
             (literature_search (sample_world "" CompilerMissing))
             (prompts_render (sample_world "" CompilerMissing))
             (llm_generate (sample_world "" CompilerMissing))
             (gather (sample_world "" CompilerMissing))
             (extract_equations (sample_world "" CompilerMissing))
             (mkdir (sample_world "" CompilerMissing))
             (md_write_text (sample_world "" CompilerMissing))
             (tex_write_text (sample_world "" CompilerMissing))
             (run_compiler (sample_world "" CompilerMissing)) in
  (run w (sample_config [1; 2]) sample_dir None initial_machine).1
    = inl (mkExn OtherException "cannot read").
Proof.
  intros w.
  apply (analysis_failure_aborts_run w (sample_config [1; 2]) sample_dir None
           initial_machine sample_repo (mkExn OtherException "cannot read"));
    reflexivity.
Defined.

(** X6.  The path a run returns is [paper.pdf] or [paper.md] in the output
    directory, never [paper.tex]: the PDF when the compiler ran and left
    one, the Markdown file when the compilation failed. *)
Theorem returned_path_is_pdf_or_markdown (w : Collaborators) (config : PipelineConfig)
    (project_dir : Path) (review_callback : option (ChapterContent -> Result bool))
    (m m' : Machine) (p : Path) :
  run w config project_dir review_callback m = (inr p, m') ->
  let out := PyPath.join project_dir (output_dir config) in
  (p = child out "paper.pdf" /\
   run_compiler w (child out "paper.tex") = CompilerRan true) \/
  (p = child out "paper.md" /\ pdf_fails w (child out "paper.tex")).
Proof.
  intros Hrun out. rewrite run_unfold in Hrun.
  destruct (_stage_analyze_repository w config project_dir m) as [[e1|[]] m1];
    [discriminate Hrun|].
  destruct (_stage_analyze_code w m1) as [[e2|[]] m2]; [discriminate Hrun|].
  destruct (_stage_generate_chapters w config review_callback m2) as [[e3|[]] m3];
    [discriminate Hrun|].
  unfold _stage_generate_output, bind, lift, get_state, ret in Hrun. simpl in Hrun.
  fold out in Hrun.
  destruct (mkdir w out) as [e|[]]; [discriminate Hrun|].
  destruct (md_write_text w _ _) as [e|[]]; [discriminate Hrun|].
  destruct (tex_write_text w _ _) as [e|[]]; [discriminate Hrun|].
  unfold compile_pdf, pdf_fails in *.
  destruct (run_compiler w (child out "paper.tex")) as [|e|[|]] eqn:Hc.
  - injection Hrun as <- _. right. split; [reflexivity | left; reflexivity].
  - discriminate Hrun.
  - left. split; [|reflexivity].
    unfold with_suffix_name, name in Hrun. simpl in Hrun.
    rewrite last_last in Hrun. simpl in Hrun.
    injection Hrun as <- _. unfold parent, child. simpl.
    rewrite removelast_last. reflexivity.
  - right. split; [|right; reflexivity].
    unfold with_suffix_name, name in Hrun. simpl in Hrun.
    rewrite last_last in Hrun. simpl in Hrun.
    injection Hrun as <- _. reflexivity.
Qed.

Lemma returned_path_is_pdf_or_markdown_witness :
  let w := sample_world "" (CompilerRan true) in
  let config := sample_config [1] in
  let out := PyPath.join sample_dir (output_dir config) in
  (mkPath true ["w"; "output"; "paper.pdf"] = child out "paper.pdf" /\
   run_compiler w (child out "paper.tex") = CompilerRan true) \/
  (mkPath true ["w"; "output"; "paper.pdf"] = child out "paper.md" /\
   pdf_fails w (child out "paper.tex")).
Proof.
  intros w config.
  apply (returned_path_is_pdf_or_markdown w config sample_dir None initial_machine
           (run w config sample_dir None initial_machine).2
           (mkPath true ["w"; "output"; "paper.pdf"])).
  vm_compute. reflexivity.
Defined.

(** X7.  Only a missing compiler is forgiven: when the compiler run raises
    any other exception, [compile_pdf] raises it, and a run whose first
    three stages returned and whose Markdown and LaTeX files were
    written raises it too, after recording it. *)
Theorem compiler_exception_aborts_run (w : Collaborators) (config : PipelineConfig)
    (project_dir : Path) (review_callback : option (ChapterContent -> Result bool))
    (m0 m : Machine) (e : Exn) :
  let out := PyPath.join project_dir (output_dir config) in
  let md_path := child out "paper.md" in
  let tex_path := child out "paper.tex" in
  bind (_stage_analyze_repository w config project_dir) (fun _ =>
    bind (_stage_analyze_code w) (fun _ =>
      _stage_generate_chapters w config review_callback)) m0 = (inr tt, m) ->
  mkdir w out = inr tt ->
  md_write_text w md_path (completed_chapters (state m)) = inr tt ->
  tex_write_text w tex_path (completed_chapters (state m)) = inr tt ->
  run_compiler w tex_path = CompilerRaised e ->
  compile_pdf w tex_path = inl e /\
  run w config project_dir review_callback m0
    = fail_with e (set_stage "generating_output" m).2.
Proof.
  intros out md_path tex_path Hstages Hmkdir Hmd Htex Hc.
  assert (Hcompile : compile_pdf w tex_path = inl e).
  { unfold compile_pdf. rewrite Hc. reflexivity. }
  split; [exact Hcompile|].
  rewrite run_unfold. unfold bind in Hstages.
  destruct (_stage_analyze_repository w config project_dir m0) as [[e1|[]] m1];
    [discriminate Hstages|].
  destruct (_stage_analyze_code w m1) as [[e2|[]] m2]; [discriminate Hstages|].
  rewrite Hstages.
  unfold _stage_generate_output, bind, lift, get_state, ret. simpl.
  fold out. rewrite Hmkdir. fold md_path. rewrite Hmd.
  fold tex_path. rewrite Htex, Hcompile. reflexivity.
Qed.

Lemma compiler_exception_aborts_run_witness :
  let w := sample_world "" (CompilerRaised (mkExn OtherException "permission denied")) in
  compile_pdf w (child (PyPath.join sample_dir (output_dir (sample_config [1])))
                       "paper.tex")
    = inl (mkExn OtherException "permission denied").
Proof.
  intros w.
  apply (compiler_exception_aborts_run w (sample_config [1]) sample_dir None
           initial_machine
           (bind (_stage_analyze_repository w (sample_config [1]) sample_dir) (fun _ =>
              bind (_stage_analyze_code w) (fun _ =>
                _stage_generate_chapters w (sample_config [1]) None))
              initial_machine).2
           (mkExn OtherException "permission denied")).
  - vm_compute. reflexivity.
  - reflexivity.
  - reflexivity.
  - reflexivity.
  - reflexivity.
Defined.

(** ** More on stage 3 *)

Lemma for_each_ext {A} (f g : A -> M unit) (l : list A) :
  (forall x m, f x m = g x m) -> forall m, for_each f l m = for_each g l m.
Proof.
  intros Hfg. induction l as [|x l IH]; intros m; [reflexivity|].
  simpl. unfold bind. rewrite Hfg. destruct (g x m) as [[e|[]] m1]; [reflexivity|].
  apply IH.
Qed.

(** X8.  The answer of the review callback is not used: with a callback that
    returns, whether it approves or rejects, stage 3 behaves exactly as
    with no callback at all. *)
Theorem review_answer_ignored (w : Collaborators) (config : PipelineConfig)
    (callback : ChapterContent -> Result bool) (m : Machine) :
  (forall chapter, exists approved, callback chapter = inr approved) ->
  _stage_generate_chapters w config (Some callback) m
    = _stage_generate_chapters w config None m.
Proof.
  intros Hreturns.
  unfold _stage_generate_chapters, bind. simpl.
  destruct (repo_info (state m)) as [ri|]; [|reflexivity].
  apply for_each_ext. intros n m1. unfold generate_chapter.
  destruct (agents !! n) as [agent|]; [|reflexivity].
  unfold try_except, bind, call_generate, bind, get_state, observe, lift. simpl.
  destruct (generate w agent _ _ _ _) as [e|chapter]; [reflexivity|]. simpl.
  destruct (bool_decide (n ∈ review_after_chapters config)); [|reflexivity].
  destruct (Hreturns chapter) as [approved ->]. reflexivity.
Qed.

Lemma review_answer_ignored_witness :
  _stage_generate_chapters (sample_world "" CompilerMissing)
    (mkPipelineConfig "https://example.org/u/demo" (mkPath false ["output"]) "ieee"
       "en" [1; 2] [] [1; 2] "Demo" [])
    (Some (fun _ => inr false)) sample_analyzed
  = _stage_generate_chapters (sample_world "" CompilerMissing)
      (mkPipelineConfig "https://example.org/u/demo" (mkPath false ["output"]) "ieee"
         "en" [1; 2] [] [1; 2] "Demo" [])
      None sample_analyzed.
Proof.
  apply (review_answer_ignored (sample_world "" CompilerMissing)
           (mkPipelineConfig "https://example.org/u/demo" (mkPath false ["output"])
              "ieee" "en" [1; 2] [] [1; 2] "Demo" [])
           (fun _ => inr false) sample_analyzed).
  intros chapter. exists false. reflexivity.
Defined.

(** X9.  A review callback that raises is handled like a failed generation,
    but after the append: the chapter stays in the completed list and an
    error line naming it is recorded as well. *)
Theorem review_exception_keeps_chapter (w : Collaborators) (config : PipelineConfig)
    (callback : ChapterContent -> Result bool)
    (repo_dict : RepoDict) (generation_config : GenerationConfig)
    (chapter_num : Z) (agent : Agent) (chapter : ChapterContent) (e : Exn)
    (m : Machine) :
  agents !! chapter_num = Some agent ->
  generate w agent repo_dict (code_analysis (state m)) (completed_chapters (state m))
           generation_config = inr chapter ->
  chapter_num ∈ review_after_chapters config ->
  callback chapter = inl e ->
  generate_chapter w config (Some callback) repo_dict generation_config chapter_num m
    = (inr tt,
       mkMachine
         (mkPipelineState (current_stage (state m))
            (completed_chapters (state m) ++ [chapter])
            (repo_info (state m)) (code_analysis (state m))
            (errors (state m) ++ [chapter_error chapter_num e]))
         (trace m ++ [EvGenerate chapter_num (inr chapter)])).
Proof.
  intros Hagent Hgen Hin Hraise.
  unfold generate_chapter. rewrite Hagent.
  unfold try_except, bind, call_generate, bind, get_state, observe, lift. simpl.
  rewrite Hgen. simpl. rewrite bool_decide_eq_true_2 by exact Hin.
  rewrite Hraise. reflexivity.
Qed.

Lemma review_exception_keeps_chapter_witness :
  let config := mkPipelineConfig "https://example.org/u/demo" (mkPath false ["output"])
                  "ieee" "en" [7] [] [7] "Demo" [] in
  let chapter :=
    mkChapterContent 7 "Conclusion" "Body of chapter7_conclusion" [] [] [] [] [] in
  generate_chapter (sample_world "" CompilerMissing) config
    (Some (fun _ => inl (mkExn OtherException "reviewer away")))
    (repo_dict_of sample_repo) (generation_config_of config) 7 sample_analyzed
  = (inr tt,
     mkMachine
       (mkPipelineState "analyzing_code" ([] ++ [chapter]) (Some sample_repo) (Some ∅)
          ([] ++ ["Chapter 7: reviewer away"]))
       (trace sample_analyzed ++ [EvGenerate 7 (inr chapter)])).
Proof.
  intros config chapter.
  apply (review_exception_keeps_chapter (sample_world "" CompilerMissing) config
           (fun _ => inl (mkExn OtherException "reviewer away"))
           (repo_dict_of sample_repo) (generation_config_of config) 7
           ConclusionAgent chapter
           (mkExn OtherException "reviewer away") sample_analyzed).
  - reflexivity.
  - reflexivity.
  - apply list_elem_of_here.
  - reflexivity.
Defined.

Lemma chapters_of_all_returned (log : list Attempt) :
  well_numbered log ->
  (forall a, a ∈ log -> generate_failed a = false) ->
  chapter_number <$> chapters_of log = at_num <$> log.
Proof.
  induction 1 as [|a log Ha _ IH]; intros Hall; [reflexivity|].
  assert (Hhead : generate_failed a = false) by (apply Hall, list_elem_of_here).
  unfold generate_failed in Hhead. unfold chapters_of in *. simpl. unfold produced at 1.
  destruct (at_outcome a) as [e|chapter] eqn:E; [discriminate Hhead|].
  rewrite !fmap_cons, (Ha _ eq_refl). f_equal. apply IH.
  intros b Hb. apply Hall, list_elem_of_further, Hb.
Qed.

(** X10.  When no [generate] call of stage 3 raises, the chapters appended are
    exactly the requested numbers that have an agent, one chapter each,
    in the order of the request. *)
Theorem all_generated_when_none_raises (w : Collaborators) (config : PipelineConfig)
    (review_callback : option (ChapterContent -> Result bool))
    (m : Machine) (ri : RepositoryInfo) :
  repo_info (state m) = Some ri ->
  let r := _stage_generate_chapters w config review_callback m in
  (forall n e, EvGenerate n (inl e) ∉ trace r.2) ->
  exists new_chapters,
    completed_chapters (state r.2) = completed_chapters (state m) ++ new_chapters /\
    chapter_number <$> new_chapters = filter registered (include_chapters config).
Proof.
  intros Hri r Hnone.
  unfold r in *.
  rewrite (stage_generate_chapters_spec w config review_callback m ri Hri) in *.
  set (log := stage_log w config review_callback ri m) in *. simpl in *.
  exists (chapters_of log). split; [reflexivity|].
  rewrite chapters_of_all_returned.
  - apply attempts_nums.
  - apply attempts_well_numbered.
  - intros a Ha. unfold generate_failed.
    destruct (at_outcome a) as [e|chapter] eqn:E; [|reflexivity].
    exfalso. apply (Hnone (at_num a) e).
    apply elem_of_app. right.
    unfold events_of. apply list_elem_of_fmap. exists a. rewrite E. split; [reflexivity|exact Ha].
Qed.

Lemma all_generated_when_none_raises_witness :
  exists new_chapters,
    completed_chapters
      (state (_stage_generate_chapters (sample_world "" CompilerMissing)
                (sample_config [3; 9; 1]) None sample_analyzed).2)
      = completed_chapters (state sample_analyzed) ++ new_chapters /\
    chapter_number <$> new_chapters = filter registered [3; 9; 1].
Proof.
  apply (all_generated_when_none_raises (sample_world "" CompilerMissing)
           (sample_config [3; 9; 1]) None sample_analyzed sample_repo eq_refl).
  intros n e H. vm_compute in H.
  repeat (apply elem_of_cons in H as [H|H]; [discriminate H|]).
  inversion H.
Defined.

Lemma attempts_without_callback w config rd gc ca (l : list Z) :
  forall done,
    Forall (fun a => at_review a = None) (attempts w config None rd gc ca l done).
Proof.
  induction l as [|n l IH]; intros done; simpl; [constructor|].
  destruct (agents !! n) as [agent|]; [|apply IH].
  destruct (generate w agent rd ca done gc) as [e|chapter];
    (constructor; [reflexivity | apply IH]).
Qed.

Lemma produced_or_failed (log : list Attempt) :
  Forall (fun a => at_review a = None) log ->
  (length (chapters_of log) + length (failures_of log) = length log)%nat.
Proof.
  induction 1 as [|a log Ha _ IH]; [reflexivity|].
  unfold chapters_of, failures_of in *. simpl. unfold produced at 1, failure at 1.
  rewrite Ha. destruct (at_outcome a) as [e|chapter]; simpl;
    change (list_omap Attempt ChapterContent produced log) with (omap produced log);
    change (list_omap Attempt (Z * Exn)%type failure log) with (omap failure log);
    lia.
Qed.

(** X11.  With no review callback, [get_state] accounts for every requested
    chapter that has an agent: after stage 3, completed chapters plus
    error entries have grown by exactly the number of such requests. *)
Theorem every_request_is_completed_or_reported (w : Collaborators)
    (config : PipelineConfig) (m : Machine) (ri : RepositoryInfo) :
  repo_info (state m) = Some ri ->
  let before := orchestrator_get_state (state m) in
  let after :=
    orchestrator_get_state (state (_stage_generate_chapters w config None m).2) in
  report_stage after = "generating_chapters" /\
  report_chapters_completed after + Z.of_nat (length (report_errors after))
    = report_chapters_completed before + Z.of_nat (length (report_errors before))
      + Z.of_nat (length (filter registered (include_chapters config))).
Proof.
  intros Hri before after. unfold after, before.
  rewrite (stage_generate_chapters_spec w config None m ri Hri).
  set (log := stage_log w config None ri m).
  assert (Hlen : (length (chapters_of log) + length (failures_of log)
                  = length (filter registered (include_chapters config)))%nat).
  { rewrite produced_or_failed by apply attempts_without_callback.
    rewrite <- (attempts_nums w config None (repo_dict_of ri)
                  (generation_config_of config) (code_analysis (state m))
                  (include_chapters config) (completed_chapters (state m))).
    rewrite length_fmap. reflexivity. }
  unfold orchestrator_get_state. simpl. split; [reflexivity|].
  unfold error_lines. rewrite !length_app, length_fmap. lia.
Qed.

Lemma every_request_is_completed_or_reported_witness :
  let after :=
    orchestrator_get_state
      (state (_stage_generate_chapters (sample_world "chapter2_existing" CompilerMissing)
                (sample_config [1; 2; 3; 8]) None sample_analyzed).2) in
  report_chapters_completed after + Z.of_nat (length (report_errors after))
    = 0 + Z.of_nat 0 + Z.of_nat (length (filter registered [1; 2; 3; 8])).
Proof.
  intros after.
  apply (every_request_is_completed_or_reported
           (sample_world "chapter2_existing" CompilerMissing)
           (sample_config [1; 2; 3; 8]) sample_analyzed sample_repo eq_refl).
Defined.

(** ** The registry and the agents *)

(** X12.  The registry is keyed by the agents' own chapter numbers: it binds
    [n] to [a] exactly when [n] is one of 1..7 and [a] is the agent
    whose [chapter_number] is [n]. *)
Theorem registry_keyed_by_chapter_number (n : Z) (a : Agent) :
  agents !! n = Some a <-> (1 <= n <= 7 /\ agent_chapter_number a = n).
Proof.
  split.
  - intros H. apply agents_lookup_Some in H. tauto.
  - intros [_ <-]. destruct a; reflexivity.
Qed.

(** X13.  A chapter produced by the agent registered for [n] carries the
    number [n] and that agent's default title, whatever the
    collaborators answered. *)
Theorem produced_chapter_is_stamped (w : Collaborators) (n : Z) (a : Agent)
    (repo_dict : RepoDict) (analysis : option (gmap string Value))
    (previous_chapters : list ChapterContent) (generation_config : GenerationConfig)
    (chapter : ChapterContent) :
  agents !! n = Some a ->
  generate w a repo_dict analysis previous_chapters generation_config = inr chapter ->
  chapter_number chapter = n /\ title chapter = chapter_title a.
Proof.
  intros Hreg Hgen. apply agents_lookup_Some in Hreg as [<- _].
  destruct a; simpl in Hgen;
    unfold introduction_generate, other_generate, rbind in Hgen;
    repeat (match type of Hgen with
            | context [match ?x with _ => _ end] => destruct x
            end; try discriminate Hgen);
    injection Hgen as <-; split; reflexivity.
Qed.

Lemma produced_chapter_is_stamped_witness :
  chapter_number
    (mkChapterContent 3 "Proposed Method" "Body of chapter3_proposed" [] [] [] [] []) = 3 /\
  title (mkChapterContent 3 "Proposed Method" "Body of chapter3_proposed" [] [] [] [] [])
    = chapter_title ProposedMethodAgent.
Proof.
  apply (produced_chapter_is_stamped (sample_world "" CompilerMissing) 3
           ProposedMethodAgent (repo_dict_of sample_repo) (Some ∅) []
           (generation_config_of (sample_config [3]))); reflexivity.
Defined.

(** ** More on the context budget *)

Section StringFacts.

Lemma append_nil_r (s : string) : s +:+ EmptyString = s.
Proof.
  induction s as [|c s IH]; [reflexivity|].
  change (String c (s +:+ EmptyString) = String c s). now rewrite IH.
Qed.

Lemma append_cons (c : ascii) (a b : string) : String c a +:+ b = String c (a +:+ b).
Proof. reflexivity. Qed.

Lemma length_append (a b : string) :
  String.length (a +:+ b) = (String.length a + String.length b)%nat.
Proof.
  induction a as [|c a IH]; [reflexivity|].
  rewrite append_cons. simpl. now rewrite IH.
Qed.

Lemma len_append (a b : string) : PyStr.len (a +:+ b) = PyStr.len a + PyStr.len b.
Proof. unfold PyStr.len. rewrite length_append. lia. Qed.

Lemma length_take (n : nat) (s : string) :
  String.length (PyStr.take n s) = Nat.min n (String.length s).
Proof.
  revert s. induction n as [|n IH]; intros [|c s]; simpl; try reflexivity.
  now rewrite IH.
Qed.

Lemma take_prefix (n : nat) (s : string) : exists rest, s = PyStr.take n s +:+ rest.
Proof.
  revert s. induction n as [|n IH]; intros s.
  - exists s. destruct s; reflexivity.
  - destruct s as [|c s]; [exists EmptyString; reflexivity|].
    destruct (IH s) as [rest Hrest]. exists rest.
    simpl PyStr.take. rewrite append_cons, <- Hrest. reflexivity.
Qed.

(** The first piece of a split is a prefix of the string. *)
Lemma split_go_head (sep : string) (s : string) :
  forall cur, exists p rest,
    hd EmptyString (PyStr.split_go sep O cur s) = cur +:+ p /\ s = p +:+ rest.
Proof.
  induction s as [|c s IH]; intros cur.
  - exists EmptyString, EmptyString. simpl. rewrite append_nil_r. split; reflexivity.
  - cbn [PyStr.split_go]. destruct (PyStr.startswith sep (String c s)).
    + exists EmptyString, (String c s). simpl. rewrite append_nil_r. split; reflexivity.
    + destruct (IH (PyStr.snoc cur c)) as (p & rest & Hhd & Hs).
      exists (String c p), rest. split.
      * rewrite Hhd. unfold PyStr.snoc. rewrite append_assoc. reflexivity.
      * rewrite append_cons, <- Hs. reflexivity.
Qed.

Lemma join_length (sep : string) (parts : list string) :
  PyStr.len (PyStr.join sep parts)
    = total_len parts + PyStr.len sep * Z.max 0 (Z.of_nat (length parts) - 1).
Proof.
  induction parts as [|p parts IH]; [simpl; unfold PyStr.len; simpl; lia|].
  destruct parts as [|q parts].
  - simpl. lia.
  - change (PyStr.join sep (p :: q :: parts))
      with (p +:+ sep +:+ PyStr.join sep (q :: parts)).
    rewrite !len_append, IH, !total_len_cons.
    change (length (p :: q :: parts)) with (S (length (q :: parts))).
    change (length (q :: parts)) with (S (length parts)).
    rewrite !Nat2Z.inj_succ, !Z.max_r by lia. lia.
Qed.

End StringFacts.

(** X14.  The summary of a chapter is its header followed by a prefix of the
    chapter's text of at most 500 characters. *)
Theorem chapter_summary_bounded (chapter : ChapterContent) :
  exists para rest,
    chapter_summary chapter
      = "Chapter " +:+ pretty (chapter_number chapter) +:+ " (" +:+ title chapter
          +:+ "): " +:+ para /\
    content_markdown chapter = para +:+ rest /\
    PyStr.len para <= 500.
Proof.
  unfold chapter_summary, first_para, PyStr.split.
  destruct (split_go_head PyStr.para_sep (content_markdown chapter) EmptyString)
    as (p & rest & Hhd & Hs).
  change (EmptyString +:+ p) with p in Hhd. rewrite Hhd.
  destruct (take_prefix 500 p) as [rest' Hrest'].
  exists (PyStr.take 500 p), (rest' +:+ rest). split; [|split].
  - rewrite !append_assoc. reflexivity.
  - rewrite <- append_assoc, <- Hrest'. exact Hs.
  - unfold PyStr.len. rewrite length_take. lia.
Qed.

(** X15.  When the summaries of all previous chapters fit the budget together,
    the digest is all of them, oldest first, joined by blank lines. *)
Theorem get_previous_context_all_fit (previous_chapters : list ChapterContent)
    (max_chars : Z) :
  total_len (chapter_summary <$> previous_chapters) <= max_chars ->
  _get_previous_context previous_chapters max_chars
    = PyStr.join PyStr.para_sep (chapter_summary <$> previous_chapters).
Proof.
  intros Hfit. rewrite get_previous_context_join. f_equal.
  unfold context_parts_of.
  destruct (context_loop_spec (rev previous_chapters) max_chars [])
    as (taken & rest & Hsplit & Hloop & Hsum & Hstop).
  rewrite Hloop, app_nil_r, rev_fmap.
  destruct rest as [|c rest].
  - rewrite app_nil_r in Hsplit. rewrite <- Hsplit, rev_involutive. reflexivity.
  - exfalso.
    assert (Htot : total_len (chapter_summary <$> previous_chapters)
                   = total_len (chapter_summary <$> taken)
                     + (PyStr.len (chapter_summary c)
                        + total_len (chapter_summary <$> rest))).
    { rewrite <- (total_len_rev (chapter_summary <$> previous_chapters)), rev_fmap,
        Hsplit, fmap_app, total_len_app, fmap_cons, total_len_cons. reflexivity. }
    pose proof (total_len_nonneg (chapter_summary <$> rest)). lia.
Qed.

Lemma get_previous_context_all_fit_witness :
  _get_previous_context [sample_intro; sample_related] 44
    = PyStr.join PyStr.para_sep (chapter_summary <$> [sample_intro; sample_related]).
Proof.
  apply (get_previous_context_all_fit [sample_intro; sample_related] 44).
  vm_compute. discriminate.
Defined.

(** X16.  The budget bounds the summaries, not the digest: the digest is as
    long as the summaries it includes plus two characters for each blank
    line between them, so for a non-negative budget it can exceed the
    budget by up to two characters per previous chapter but the first. *)
Theorem get_previous_context_length (previous_chapters : list ChapterContent)
    (max_chars : Z) :
  0 <= max_chars ->
  let parts := context_parts_of previous_chapters max_chars in
  let digest := _get_previous_context previous_chapters max_chars in
  PyStr.len digest = total_len parts + 2 * Z.max 0 (Z.of_nat (length parts) - 1) /\
  total_len parts <= max_chars /\
  (length parts <= length previous_chapters)%nat /\
  PyStr.len digest
    <= max_chars + 2 * Z.max 0 (Z.of_nat (length previous_chapters) - 1).
Proof.
  intros Hpos parts digest.
  assert (Hlen : PyStr.len digest
                 = total_len parts + 2 * Z.max 0 (Z.of_nat (length parts) - 1)).
  { unfold digest. rewrite get_previous_context_join. fold parts.
    rewrite join_length. reflexivity. }
  destruct (context_loop_spec (rev previous_chapters) max_chars [])
    as (taken & rest & Hsplit & Hloop & Hsum & _).
  fold (context_parts_of previous_chapters max_chars) in Hloop. fold parts in Hloop.
  rewrite app_nil_r in Hloop.
  assert (Htotal : total_len parts <= max_chars).
  { rewrite Hloop, total_len_rev. destruct taken as [|t taken]; [exact Hpos|].
    apply Hsum. discriminate. }
  assert (Hcount : (length parts <= length previous_chapters)%nat).
  { rewrite Hloop, length_rev, length_fmap, <- (length_rev previous_chapters), Hsplit,
      length_app. lia. }
  split; [exact Hlen|]. split; [exact Htotal|]. split; [exact Hcount|]. lia.
Qed.

Lemma get_previous_context_length_witness :
  PyStr.len (_get_previous_context [sample_intro; sample_related] 44)
    = total_len (context_parts_of [sample_intro; sample_related] 44)
      + 2 * Z.max 0 (Z.of_nat (length (context_parts_of [sample_intro; sample_related] 44)) - 1).
Proof.
  apply (get_previous_context_length [sample_intro; sample_related] 44). lia.
Defined.

(** ** More on the Introduction agent *)

(** X17.  The references of an Introduction chapter are those of the
    literature search when the search returned, and none when it
    raised. *)
Theorem introduction_references (w : Collaborators) (repo_dict : RepoDict)
    (analysis : option (gmap string Value)) (previous_chapters : list ChapterContent)
    (generation_config : GenerationConfig) (chapter : ChapterContent) :
  generate w IntroductionAgent repo_dict analysis previous_chapters generation_config
    = inr chapter ->
  references chapter
    = match literature_search w
              (literature_query repo_dict (gc_research_keywords generation_config)) 10
      with
      | inr results => sr_references results
      | inl _ => []
      end.
Proof.
  simpl. unfold introduction_generate, _research_literature, rbind.
  destruct (literature_search w _ 10) as [e|results];
    destruct (language_names analysis) as [e'|techs]; try discriminate;
    destruct (_call_llm w IntroductionAgent _) as [e''|content]; try discriminate;
    intros [= <-]; reflexivity.
Qed.

Lemma introduction_references_witness :
  references (mkChapterContent 1 "Introduction" "Body of chapter1_intro" [] [] [] [] [])
    = match literature_search (sample_world "" CompilerMissing)
              (literature_query (repo_dict_of sample_repo)
                 (gc_research_keywords (generation_config_of (sample_config [1])))) 10
      with
      | inr results => sr_references results
      | inl _ => []
      end.
Proof.
  apply (introduction_references (sample_world "" CompilerMissing)
           (repo_dict_of sample_repo) (Some ∅) []
           (generation_config_of (sample_config [1]))).
  reflexivity.
Defined.

(** X18.  The README summary is short: at most 1000 characters, or exactly
    1003 of which the last three are the dots of a truncation. *)
Theorem summarize_readme_bounded (readme : option string) :
  (String.length (_summarize_readme readme) <= 1000)%nat \/
  (String.length (_summarize_readme readme) = 1003%nat /\
   PyStr.ends_with (_summarize_readme readme) "...").
Proof.
  unfold _summarize_readme.
  destruct readme as [[|c r]|]; [left; simpl; lia| |left; simpl; lia].
  set (summary := PyStr.join " " _).
  destruct (Nat.ltb_spec 1000 (String.length summary)) as [Hlong|Hshort].
  - right. split.
    + rewrite length_append, length_take.
      change (String.length "...") with 3%nat. lia.
    + exists (PyStr.take 1000 summary). reflexivity.
  - left. exact Hshort.
Qed.

(** ** More on the PDF compilation *)

Lemma before_last_dot_tex (base : string) :
  before_last_dot (base +:+ ".tex") = Some base.
Proof.
  induction base as [|c base IH]; [reflexivity|].
  rewrite append_cons. simpl. rewrite IH. reflexivity.
Qed.

Lemma parent_child (dir : Path) (n : string) : parent (child dir n) = dir.
Proof.
  destruct dir as [a ps]. unfold parent, child. simpl.
  rewrite removelast_last. reflexivity.
Qed.

(** X20.  For a LaTeX file [base.tex] with a non-empty [base], [compile_pdf]
    returns the sibling [base.pdf] when the compiler ran and left it,
    nothing when the compiler is missing or left no PDF, and raises what
    the compiler run raised otherwise. *)
Theorem compile_pdf_spec (w : Collaborators) (dir : Path) (base : string) :
  base <> EmptyString ->
  let tex_path := child dir (base +:+ ".tex") in
  compile_pdf w tex_path =
    match run_compiler w tex_path with
    | CompilerMissing => inr None
    | CompilerRaised e => inl e
    | CompilerRan true => inr (Some (child dir (base +:+ ".pdf")))
    | CompilerRan false => inr None
    end.
Proof.
  intros Hbase tex_path. unfold compile_pdf.
  destruct (run_compiler w tex_path) as [|e|pdf_exists]; try reflexivity.
  assert (Hname : with_suffix_name tex_path ".pdf" = Some (base +:+ ".pdf")).
  { unfold with_suffix_name, name, tex_path, child. simpl. rewrite last_last.
    destruct (base +:+ ".tex") as [|c n] eqn:E.
    - destruct base; discriminate E.
    - rewrite <- E. unfold stem. rewrite before_last_dot_tex, length_append. simpl.
      destruct base as [|b base]; [congruence|]. simpl.
      replace (String.length base + 4 - 0)%nat with (S (S (S (S (String.length base)))))
        by lia.
      rewrite (proj2 (Nat.ltb_lt _ _)) by lia. reflexivity. }
  rewrite Hname. unfold tex_path. rewrite parent_child.
  destruct pdf_exists; reflexivity.
Qed.

Lemma compile_pdf_spec_witness :
  compile_pdf (sample_world "" (CompilerRan true))
              (child (mkPath true ["w"; "output"]) ("paper" +:+ ".tex"))
  = inr (Some (child (mkPath true ["w"; "output"]) ("paper" +:+ ".pdf"))).
Proof.
  apply (compile_pdf_spec (sample_world "" (CompilerRan true))
           (mkPath true ["w"; "output"]) "paper").
  discriminate.
Defined.

(** ** The repository name *)

Section SplitFacts.

Import PyStrMore.

Variable c : ascii.
Let sep : string := String c EmptyString.

Lemma startswith_single (a : ascii) (s : string) :
  PyStr.startswith sep (String a s) = Ascii.eqb c a.
Proof. unfold sep. simpl. destruct (Ascii.eqb c a); reflexivity. Qed.

Lemma has_char_append (a b : string) :
  has_char c (a +:+ b) = has_char c a || has_char c b.
Proof.
  induction a as [|x a IH]; [reflexivity|].
  rewrite append_cons. simpl. rewrite IH, orb_assoc. reflexivity.
Qed.

Lemma split_go_nonempty (k : nat) (cur s : string) : PyStr.split_go sep k cur s <> [].
Proof.
  revert k cur. induction s as [|a s IH]; intros k cur; [discriminate|].
  cbn [PyStr.split_go]. destruct k as [|k]; [|apply IH].
  destruct (PyStr.startswith sep (String a s)); [discriminate | apply IH].
Qed.

(** No piece of a split on one character contains that character. *)
Lemma split_go_pieces (s : string) :
  forall cur, has_char c cur = false ->
    Forall (fun p => has_char c p = false) (PyStr.split_go sep O cur s).
Proof.
  induction s as [|a s IH]; intros cur Hcur.
  - constructor; [exact Hcur | constructor].
  - cbn [PyStr.split_go]. rewrite startswith_single.
    destruct (Ascii.eqb c a) eqn:E.
    + constructor; [exact Hcur|]. apply IH. reflexivity.
    + apply IH. unfold PyStr.snoc. rewrite has_char_append, Hcur. simpl.
      rewrite Ascii.eqb_sym, E. reflexivity.
Qed.

(** A string without the separator is its own single piece. *)
Lemma split_go_whole (s : string) :
  forall cur, has_char c s = false -> PyStr.split_go sep O cur s = [cur +:+ s].
Proof.
  induction s as [|a s IH]; intros cur Hs.
  - simpl. rewrite append_nil_r. reflexivity.
  - simpl in Hs. apply orb_false_elim in Hs as [Ha Hs].
    cbn [PyStr.split_go]. rewrite startswith_single, Ascii.eqb_sym, Ha.
    rewrite IH by exact Hs. unfold PyStr.snoc. rewrite append_assoc. reflexivity.
Qed.

(** The last piece is what follows the last separator. *)
Lemma split_go_last (base name : string) :
  has_char c name = false ->
  forall cur,
    List.last (PyStr.split_go sep O cur (base +:+ sep +:+ name)) EmptyString = name.
Proof.
  intros Hname. induction base as [|a base IH]; intros cur.
  - change (EmptyString +:+ sep +:+ name) with (String c name).
    cbn [PyStr.split_go]. rewrite startswith_single, Ascii.eqb_refl.
    change (String.length sep - 1)%nat with O.
    rewrite split_go_whole by exact Hname. reflexivity.
  - rewrite append_cons. cbn [PyStr.split_go]. rewrite startswith_single.
    destruct (Ascii.eqb c a); [|apply IH].
    change (String.length sep - 1)%nat with O.
    specialize (IH EmptyString).
    destruct (PyStr.split_go sep O EmptyString (base +:+ sep +:+ name)) as [|x l] eqn:E.
    + exfalso. exact (split_go_nonempty _ _ _ E).
    + exact IH.
Qed.

(** Joining the pieces with the separator gives the string back. *)
Lemma join_split_go (s : string) :
  forall cur, PyStr.join sep (PyStr.split_go sep O cur s) = cur +:+ s.
Proof.
  induction s as [|a s IH]; intros cur.
  - simpl. rewrite append_nil_r. reflexivity.
  - cbn [PyStr.split_go]. rewrite startswith_single.
    destruct (Ascii.eqb c a) eqn:E.
    + apply Ascii.eqb_eq in E as <-.
      change (String.length sep - 1)%nat with O.
      specialize (IH EmptyString).
      destruct (PyStr.split_go sep O EmptyString s) as [|x l] eqn:Hl.
      * exfalso. exact (split_go_nonempty _ _ _ Hl).
      * change (PyStr.join sep (cur :: x :: l))
          with (cur +:+ sep +:+ PyStr.join sep (x :: l)).
        rewrite IH. reflexivity.
    + rewrite IH. unfold PyStr.snoc. rewrite append_assoc. reflexivity.
Qed.

Lemma rstrip_char_snoc (s : string) :
  rstrip_char c (s +:+ sep) = rstrip_char c s.
Proof.
  induction s as [|a s IH].
  - simpl. rewrite Ascii.eqb_refl. reflexivity.
  - rewrite append_cons. simpl. rewrite IH. reflexivity.
Qed.

Lemma rstrip_char_fixed (s t : string) :
  t <> EmptyString -> rstrip_char c t = t -> rstrip_char c (s +:+ t) = s +:+ t.
Proof.
  intros Hne Ht. induction s as [|a s IH]; [exact Ht|].
  rewrite append_cons. simpl. rewrite IH.
  destruct (s +:+ t) as [|x y] eqn:E; [|reflexivity].
  destruct s as [|z s'].
  - change (EmptyString +:+ t) with t in E. congruence.
  - rewrite append_cons in E. discriminate E.
Qed.

End SplitFacts.

Section RepoName.

Import PyStrMore.

Lemma drop_append (a b : string) : drop (String.length a) (a +:+ b) = b.
Proof. induction a as [|x a IH]; [destruct b; reflexivity | exact IH]. Qed.

Lemma take_append (a b : string) : PyStr.take (String.length a) (a +:+ b) = a.
Proof.
  induction a as [|x a IH]; [destruct b; reflexivity|].
  rewrite append_cons. simpl. rewrite IH. reflexivity.
Qed.

Lemma last_Forall {A} (P : A -> Prop) (l : list A) (d : A) :
  P d -> Forall P l -> P (List.last l d).
Proof.
  intros Hd. induction 1 as [|x l Hx Hl IH]; [exact Hd|].
  destruct l; [exact Hx | exact IH].
Qed.

(** What [_extract_repo_name] does with a URL that ends in [.git]. *)
Lemma extract_repo_name_git_eq (x : string) :
  _extract_repo_name (x +:+ ".git") = List.last (PyStr.split "/" x) EmptyString.
Proof.
  unfold _extract_repo_name.
  rewrite rstrip_char_fixed by (discriminate || reflexivity).
  assert (Hends : endswith ".git" (x +:+ ".git") = true).
  { unfold endswith. rewrite length_append. simpl String.length.
    replace (String.length x + 4 - 4)%nat with (String.length x) by lia.
    rewrite drop_append. rewrite (proj2 (Nat.leb_le _ _)) by lia. reflexivity. }
  rewrite Hends. unfold drop_last. rewrite length_append. simpl String.length.
  replace (String.length x + 4 - 4)%nat with (String.length x) by lia.
  rewrite take_append. reflexivity.
Qed.

End RepoName.

(** X21.  The repository name never contains a slash, whatever the URL. *)
Theorem extract_repo_name_no_slash (url : string) :
  PyStrMore.has_char "/"%char (_extract_repo_name url) = false.
Proof.
  unfold _extract_repo_name.
  apply (last_Forall (fun p => PyStrMore.has_char "/"%char p = false));
    [reflexivity|].
  apply split_go_pieces. reflexivity.
Qed.

(** X22.  For a clone URL [base/name.git] the repository name is [name]. *)
Theorem extract_repo_name_git (base name : string) :
  PyStrMore.has_char "/"%char name = false ->
  _extract_repo_name (base +:+ "/" +:+ name +:+ ".git") = name.
Proof.
  intros Hname.
  replace (base +:+ "/" +:+ name +:+ ".git") with ((base +:+ "/" +:+ name) +:+ ".git")
    by (rewrite !append_assoc; reflexivity).
  rewrite extract_repo_name_git_eq. apply split_go_last. exact Hname.
Qed.

Lemma extract_repo_name_git_witness :
  _extract_repo_name ("https://github.com/lutelute" +:+ "/" +:+ "auto-white-paper" +:+ ".git")
    = "auto-white-paper".
Proof.
  apply (extract_repo_name_git "https://github.com/lutelute" "auto-white-paper").
  reflexivity.
Defined.

(** X23.  Trailing slashes do not matter: a URL and the same URL followed by a
    slash have the same repository name. *)
Theorem extract_repo_name_trailing_slash (url : string) :
  _extract_repo_name (url +:+ "/") = _extract_repo_name url.
Proof.
  unfold _extract_repo_name. rewrite rstrip_char_snoc. reflexivity.
Qed.

(** ** Sections of a generated text *)

Section Sections.

Let LFs : string := String PyStr.LF EmptyString.

Lemma sections_loop_plain (lines : list string) :
  Forall (fun line => PyStr.startswith "## " line = false) lines ->
  forall sections current acc,
    sections_loop lines sections current acc
      = flush_section sections current (acc ++ lines).
Proof.
  induction 1 as [|line lines Hline _ IH]; intros sections current acc.
  - rewrite app_nil_r. reflexivity.
  - cbn [sections_loop]. rewrite Hline, IH, <- app_assoc. reflexivity.
Qed.

Lemma flush_section_lookup sections current acc (k v : string) :
  flush_section sections current acc !! k = Some v ->
  sections !! k = Some v \/ k = current.
Proof.
  unfold flush_section. destruct acc as [|x acc]; [auto|].
  destruct (decide (current = k)) as [->|Hne]; [auto|].
  rewrite lookup_insert_ne by exact Hne. auto.
Qed.

Lemma sections_loop_lookup (lines : list string) (k v : string) :
  forall sections current acc,
    sections_loop lines sections current acc !! k = Some v ->
    sections !! k = Some v \/ k = current \/
    exists line, line ∈ lines /\ PyStr.startswith "## " line = true /\
                 k = section_name line.
Proof.
  induction lines as [|line lines IH]; intros sections current acc Hk.
  - apply flush_section_lookup in Hk. tauto.
  - cbn [sections_loop] in Hk.
    destruct (PyStr.startswith "## " line) eqn:Hline.
    + apply IH in Hk as [Hk|[Hk|(l & Hl & Hh & Hname)]].
      * apply flush_section_lookup in Hk. tauto.
      * right. right. exists line. split; [apply list_elem_of_here | auto].
      * right. right. exists l. split; [apply list_elem_of_further, Hl | auto].
    + apply IH in Hk as [Hk|[Hk|(l & Hl & Hh & Hname)]]; [auto | auto |].
      right. right. exists l. split; [apply list_elem_of_further, Hl | auto].
Qed.

End Sections.

(** X24.  A text without any header line comes back whole, as the single
    section "intro". *)
Theorem extract_sections_without_headers (content : string) :
  Forall (fun line => PyStr.startswith "## " line = false)
         (PyStr.split (String PyStr.LF EmptyString) content) ->
  _extract_sections content = {[ "intro" := content ]}.
Proof.
  intros Hplain. unfold _extract_sections.
  rewrite sections_loop_plain by exact Hplain. simpl app.
  unfold flush_section, PyStr.split in *.
  destruct (PyStr.split_go (String PyStr.LF EmptyString) 0 EmptyString content)
    as [|x l] eqn:E.
  - exfalso. exact (split_go_nonempty _ _ _ _ E).
  - rewrite <- E, join_split_go. reflexivity.
Qed.

Lemma extract_sections_without_headers_witness :
  _extract_sections ("Some text" +:+ String PyStr.LF "# not a section")
    = {[ "intro" := "Some text" +:+ String PyStr.LF "# not a section" ]}.
Proof.
  apply (extract_sections_without_headers
           ("Some text" +:+ String PyStr.LF "# not a section")).
  vm_compute. repeat constructor.
Defined.

(** X25.  The names of the extracted sections are "intro" and the normalised
    titles of the header lines of the text, nothing else. *)
Theorem extract_sections_names (content name body : string) :
  _extract_sections content !! name = Some body ->
  name = "intro" \/
  exists line,
    line ∈ PyStr.split (String PyStr.LF EmptyString) content /\
    PyStr.startswith "## " line = true /\
    name = section_name line.
Proof.
  intros Hk. unfold _extract_sections in Hk.
  apply sections_loop_lookup in Hk as [Hk|[Hk|Hk]]; [|auto|auto].
  rewrite lookup_empty in Hk. discriminate Hk.
Qed.

Lemma extract_sections_names_witness :
  "my_title" = "intro" \/
  exists line,
    line ∈ PyStr.split (String PyStr.LF EmptyString)
             ("## My Title" +:+ String PyStr.LF "body") /\
    PyStr.startswith "## " line = true /\
    "my_title" = section_name line.
Proof.
  apply (extract_sections_names ("## My Title" +:+ String PyStr.LF "body")
           "my_title" "body").
  vm_compute. reflexivity.
Defined.

(** ** The README summary is one line *)

Section OneLine.

Import PyStrMore.

Variable c : ascii.

Lemma has_char_lstrip (s : string) :
  has_char c s = false -> has_char c (PyStr.lstrip s) = false.
Proof.
  induction s as [|a s IH]; [reflexivity|]. intros Hs. simpl.
  destruct (PyStr.is_space a); [|exact Hs].
  apply IH. simpl in Hs. apply orb_false_elim in Hs. tauto.
Qed.

Lemma has_char_rstrip (s : string) :
  has_char c s = false -> has_char c (PyStr.rstrip s) = false.
Proof.
  induction s as [|a s IH]; [reflexivity|]. intros Hs.
  simpl in Hs. apply orb_false_elim in Hs as [Ha Hs]. specialize (IH Hs).
  simpl. destruct (PyStr.rstrip s) as [|x r].
  - destruct (PyStr.is_space a); [reflexivity|]. simpl. rewrite Ha. reflexivity.
  - change (has_char c (String a (String x r)))
      with (Ascii.eqb a c || has_char c (String x r)).
    rewrite Ha, IH. reflexivity.
Qed.

Lemma has_char_take (n : nat) (s : string) :
  has_char c s = false -> has_char c (PyStr.take n s) = false.
Proof.
  revert s. induction n as [|n IH]; intros [|a s] Hs; try reflexivity.
  simpl in Hs. apply orb_false_elim in Hs as [Ha Hs].
  simpl. rewrite Ha, IH by exact Hs. reflexivity.
Qed.

Lemma has_char_join (sep : string) (parts : list string) :
  has_char c sep = false ->
  Forall (fun p => has_char c p = false) parts ->
  has_char c (PyStr.join sep parts) = false.
Proof.
  intros Hsep. induction 1 as [|p parts Hp Hparts IH]; [reflexivity|].
  destruct parts as [|q parts]; [exact Hp|].
  change (PyStr.join sep (p :: q :: parts))
    with (p +:+ sep +:+ PyStr.join sep (q :: parts)).
  rewrite !has_char_append, Hp, Hsep, IH. reflexivity.
Qed.

End OneLine.

(** X19.  The README summary never contains a line break. *)
Theorem summarize_readme_one_line (readme : option string) :
  PyStrMore.has_char PyStr.LF (_summarize_readme readme) = false.
Proof.
  unfold _summarize_readme. destruct readme as [[|c0 r]|]; try reflexivity.
  set (first_section := hd EmptyString _).
  assert (Hsummary :
    PyStrMore.has_char PyStr.LF
      (PyStr.join " "
         (filter (fun l => keep_line l = true)
            (PyStr.strip <$> PyStr.split (String PyStr.LF EmptyString) first_section)))
    = false).
  { apply has_char_join; [reflexivity|].
    apply Forall_forall. intros line [_ Hline]%list_elem_of_filter.
    apply list_elem_of_fmap in Hline as (piece & -> & Hpiece).
    unfold PyStr.strip. apply has_char_rstrip, has_char_lstrip.
    pose proof (split_go_pieces PyStr.LF first_section EmptyString eq_refl) as Hall.
    rewrite Forall_forall in Hall. apply Hall, Hpiece. }
  destruct (_ <? _)%nat; [|exact Hsummary].
  rewrite has_char_append, has_char_take by exact Hsummary. reflexivity.
Qed.

(** ** The reference list of the Markdown document *)

Lemma elem_of_concat {A} (x : A) (ls : list (list A)) :
  x ∈ concat ls <-> exists l, x ∈ l /\ l ∈ ls.
Proof.
  rewrite list_elem_of_In, in_concat. split.
  - intros (l & Hl & Hx). exists l. rewrite !list_elem_of_In. tauto.
  - intros (l & Hx & Hl). exists l. rewrite <- !list_elem_of_In. tauto.
Qed.

(** X26.  The keys of the reference list are the keys cited by the chapters,
    each once, in increasing order. *)
Theorem reference_keys_spec (chapters : list ChapterContent) :
  StronglySorted String.le (reference_keys chapters) /\
  NoDup (reference_keys chapters) /\
  (forall key, key ∈ reference_keys chapters <->
               exists chapter, chapter ∈ chapters /\ key ∈ references chapter).
Proof.
  unfold reference_keys. split; [|split].
  - apply StronglySorted_merge_sort; apply _.
  - rewrite merge_sort_Permutation. apply NoDup_remove_dups.
  - intros key. rewrite merge_sort_Permutation, elem_of_remove_dups.
    rewrite elem_of_concat. split.
    + intros (refs & Hkey & Hrefs). apply list_elem_of_fmap in Hrefs as (ch & -> & Hch).
      exists ch. split; assumption.
    + intros (ch & Hch & Hkey). exists (references ch). split; [exact Hkey|].
      apply list_elem_of_fmap. exists ch. split; [reflexivity | exact Hch].
Qed.



